(** * pvlib/irradiance.py: plane-of-array irradiance models

    A shallow embedding of [src/pvlib/irradiance.py] and the properties its
    specification states about it.

    Conventions of the embedding.
    - A numpy/pandas float is a real number ([R]); NaN and infinities are
      not represented.  A label that a filtered pandas Series does not
      carry (or carries as NaN) is [None] in a [list (option R)].
    - An argument documented as "float or DataFrame" is a [value]: a scalar
      [Num x] or a one-dimensional Series [Ser s] on the index [0 .. n-1].
      Scalars broadcast against Series.  All Series of one call share
      their index (the alignment invariant of the data model); the
      statements below carry that as a hypothesis where it matters.
      On Series of different lengths pandas raises or pads with NaN, which
      the embedding does not follow: [shape n v] says that [v] fits the
      index of the call.
    - The arguments of a call are objects on a [heap]; a function that
      assigns into an argument ([GHI[GHI < DHI] = DHI]) writes to the
      caller's object.
    - [pvl_tools.Parse] (validation of the arguments against [Expect]) is
      not part of the sources at hand; the embedding of each function is
      the body that follows the call to it, and [var.X] is read as the
      argument [X] itself (the specification counts the assignment to
      [var.HExtra] among the in-place mutations of the inputs). *)

From Stdlib Require Import Reals Lra Lia List ZArith Bool.
From Stdlib Require String.
Import (notations) String.
Import ListNotations.
Open Scope R_scope.

(** ** Python outcomes *)

Inductive exn : Type :=
| KeyError      (* a dict has no such key *)
| TypeError     (* item assignment into a float, ... *)
| ValueError    (* empty reduction, ragged array, frame of scalars only *)
| IndexError    (* too many indices for an array *)
| NameError     (* a reference that the heap of the call does not hold *)
| BadAxis.      (* an [axis] argument that is no axis of the operand *)

Inductive result (A : Type) : Type :=
| Ok (a : A)
| Raise (e : exn).
Arguments Ok {A} a.
Arguments Raise {A} e.

Definition rbind {A B} (r : result A) (k : A -> result B) : result B :=
  match r with
  | Ok a => k a
  | Raise e => Raise e
  end.

Declare Scope py_scope.
Delimit Scope py_scope with py.
Notation "x <- c ;; k" := (rbind c (fun x => k))
  (at level 61, c at next level, right associativity) : py_scope.

(** numpy changed what it does with a non-integer [axis] and with a ragged
    nested list: old releases (those the module was written against)
    truncate the former to an integer and build a one-dimensional array of
    row objects from the latter; current ones raise in both cases. *)
Inductive numpy_era : Type := Legacy | Modern.

(** ** Scalars, Series and broadcasting *)

Inductive value : Type :=
| Num (x : R)
| Ser (s : list R).

Definition Rltb (x y : R) : bool := if Rlt_dec x y then true else false.
Definition Rleb (x y : R) : bool := if Rle_dec x y then true else false.
Definition Reqb (x y : R) : bool := if Req_dec_T x y then true else false.

Fixpoint map2 {A B C} (f : A -> B -> C) (l : list A) (m : list B) : list C :=
  match l, m with
  | a :: l', b :: m' => f a b :: map2 f l' m'
  | _, _ => []
  end.

(** The element of a value at position [i]: a scalar has the same element
    everywhere. *)
Definition elt (v : value) (i : nat) : option R :=
  match v with
  | Num x => Some x
  | Ser s => nth_error s i
  end.

Definition is_series (v : value) : bool :=
  match v with Num _ => false | Ser _ => true end.

(** [shape n v]: [v] fits an index of [n] labels. *)
Definition shape (n : nat) (v : value) : Prop :=
  match v with
  | Num _ => True
  | Ser s => length s = n
  end.

Definition vmap (f : R -> R) (v : value) : value :=
  match v with
  | Num x => Num (f x)
  | Ser s => Ser (map f s)
  end.

Definition vmap2 (f : R -> R -> R) (a b : value) : value :=
  match a, b with
  | Num x, Num y => Num (f x y)
  | Num x, Ser t => Ser (map (f x) t)
  | Ser s, Num y => Ser (map (fun x => f x y) s)
  | Ser s, Ser t => Ser (map2 f s t)
  end.

Definition vadd := vmap2 Rplus.
Definition vsub := vmap2 Rminus.
Definition vmul := vmap2 Rmult.
Definition vdiv := vmap2 Rdiv.
Definition vpow (v : value) (n : nat) : value := vmap (fun x => x ^ n) v.

Declare Scope value_scope.
Delimit Scope value_scope with V.
Bind Scope value_scope with value.
Infix "+" := vadd : value_scope.
Infix "-" := vsub : value_scope.
Infix "*" := vmul : value_scope.
Infix "/" := vdiv : value_scope.
Infix "**" := vpow (at level 30, right associativity) : value_scope.

(** [x[x ? bound] = v] for a comparison [t]: item assignment under the
    mask [t x bound].  A float supports no item assignment; on a Series
    the assigned value is aligned with the target, so position [i]
    receives the element of [v] at [i]. *)
Fixpoint assign_from (t : R -> R -> bool) (i : nat) (s : list R)
    (bound v : value) : list R :=
  match s with
  | [] => []
  | x :: s' =>
      (match elt bound i, elt v i with
       | Some b, Some y => if t x b then y else x
       | _, _ => x
       end) :: assign_from t (S i) s' bound v
  end.

Definition setitem_where (t : R -> R -> bool) (x bound v : value)
    : result value :=
  match x with
  | Num _ => Raise TypeError
  | Ser s => Ok (Ser (assign_from t 0 s bound v))
  end.

(** ** Angles *)

(** [np.radians]. *)
Definition radians (x : R) : R := x * PI / 180.

(** Modelled from the spec: [pvl_tools.cosd] and [pvl_tools.sind], the
    cosine and sine of an angle given in decimal degrees ("angle units are
    always decimal degrees at the function boundary; radian conversion is
    internal"); [pvl_tools] is not among the sources. *)
Definition cosd (v : value) : value := vmap (fun x => cos (radians x)) v.
Definition sind (v : value) : value := vmap (fun x => sin (radians x)) v.

(** ** extraradiation *)

Definition extraradiation (doy : value) : value :=
  let B := (Num 2 * Num PI * doy / Num 365)%V in
  let Rfact2 :=
    (Num 1.00011 + Num 0.034221 * vmap cos B + Num 0.00128 * vmap sin B
     + Num 0.000719 * vmap cos (Num 2 * B)
     + Num 7.7e-05 * vmap sin (Num 2 * B))%V in
  let Ea := (Num 1367 * Rfact2)%V in
  Ea.

(** ** globalinplane *)

Record in_plane : Type := mk_in_plane { E : value; Eb : value; Ediff : value }.

(** [pd.DataFrame] of a dict of columns: scalar columns are broadcast over
    the index of the Series columns; with scalars only there is no index
    and the constructor raises. *)
Definition DataFrame3 (e eb ediff : value) : result in_plane :=
  if is_series e || is_series eb || is_series ediff
  then Ok (mk_in_plane e eb ediff)
  else Raise ValueError.

Definition globalinplane (SurfTilt SurfAz AOI DNI In_Plane_SkyDiffuse GR : value)
    : result in_plane :=
  let Eb := (DNI * vmap cos (vmap radians AOI))%V in
  let E := (Eb + In_Plane_SkyDiffuse + GR)%V in
  let Ediff := (In_Plane_SkyDiffuse + GR)%V in
  DataFrame3 E Eb Ediff.

(** ** grounddiffuse *)

(** [pd.DataFrame] of a dict with one column: a scalar column has no index
    and the constructor raises. *)
Definition DataFrame1 (col : value) : result value :=
  if is_series col then Ok col else Raise ValueError.

Definition grounddiffuse (SurfTilt GHI Albedo : value) : result value :=
  let GR := (GHI * Albedo
             * ((Num 1 - vmap cos (vmap radians SurfTilt)) * Num 0.5))%V in
  DataFrame1 GR.

(** ** isotropicsky *)

Definition isotropicsky (SurfTilt DHI : value) : value :=
  let SkyDiffuse := (DHI * (Num 1 + cosd SurfTilt) * Num 0.5)%V in
  SkyDiffuse.

(** ** kingdiffuse *)

Definition kingdiffuse (SurfTilt DHI GHI SunZen : value) : value :=
  let SkyDiffuse :=
    (DHI * (Num 1 + cosd SurfTilt) / Num 2
     + GHI * (Num 0.012 * SunZen - Num 0.04) * (Num 1 - cosd SurfTilt)
       / Num 2)%V in
  SkyDiffuse.

(** ** np.max *)

(** A Python number passed where numpy expects an axis. *)
Inductive pynum : Type :=
| PyInt (z : Z)
| PyFloat (x : R).

(** [int(x)]: truncation toward zero. *)
Definition py_int (x : R) : Z :=
  if Rle_dec 0 x then Int_part x else (- Int_part (- x))%Z.

Definition as_axis (era : numpy_era) (a : pynum) : result Z :=
  match a with
  | PyInt z => Ok z
  | PyFloat x =>
      match era with
      | Legacy => Ok (py_int x)
      | Modern => Raise BadAxis
      end
  end.

Fixpoint list_max (x : R) (s : list R) : R :=
  match s with
  | [] => x
  | y :: s' => list_max (Rmax x y) s'
  end.

(** [np.max(a, axis)]: the second positional argument is the axis to
    reduce along, not a second operand.  A Series has the one axis 0
    (also written -1) and reduces to its largest element; a scalar is
    returned as it is for these two axes. *)
Definition np_max (era : numpy_era) (a : value) (axis : pynum) : result value :=
  (ax <- as_axis era axis ;;
   if (ax =? 0)%Z || (ax =? -1)%Z then
     match a with
     | Num x => Ok (Num x)
     | Ser [] => Raise ValueError
     | Ser (x :: s) => Ok (Num (list_max x s))
     end
   else Raise BadAxis)%py.

(** ** haydavies1980 *)

Definition haydavies1980 (era : numpy_era)
    (SurfTilt SurfAz DHI DNI HExtra SunZen SunAz : value) : result value :=
  let COSTT := (cosd SurfTilt * cosd SunZen
                + sind SurfTilt * sind SunZen * cosd (SunAz - SurfAz))%V in
  (top <- np_max era COSTT (PyInt 0) ;;
   bot <- np_max era (cosd SunZen) (PyFloat 0.01745) ;;
   let RB := (top / bot)%V in
   let AI := (DNI / HExtra)%V in
   let SkyDiffuse :=
     (DHI * (AI * RB + (Num 1 - AI) * Num 0.5 * (Num 1 + cosd SurfTilt)))%V in
   Ok SkyDiffuse)%py.

(** ** The caller's objects *)

Definition loc := nat.
Definition heap := list value.

Fixpoint update (l : loc) (v : value) (h : heap) : heap :=
  match h, l with
  | [], _ => []
  | _ :: h', O => v :: h'
  | w :: h', S l' => w :: update l' v h'
  end.

(** A statement sequence over the heap.  An exception ends it; what was
    written before stays written. *)
Definition M (A : Type) : Type := heap -> result A * heap.

Definition ret {A} (a : A) : M A := fun h => (Ok a, h).

Definition bind {A B} (m : M A) (k : A -> M B) : M B :=
  fun h =>
    match m h with
    | (Ok a, h') => k a h'
    | (Raise e, h') => (Raise e, h')
    end.

Definition lift {A} (r : result A) : M A := fun h => (r, h).

(** References of a call always point into its heap; an empty slot reads
    as an unbound name. *)
Definition load (l : loc) : M value :=
  fun h =>
    match nth_error h l with
    | Some v => (Ok v, h)
    | None => (Raise NameError, h)
    end.

Definition store (l : loc) (v : value) : M unit :=
  fun h => (Ok tt, update l v h).

Declare Scope heap_scope.
Delimit Scope heap_scope with M.
Bind Scope heap_scope with M.
Notation "x <- c ;; k" := (bind c (fun x => k))
  (at level 61, c at next level, right associativity) : heap_scope.
Notation "c ;; k" := (bind c (fun _ => k))
  (at level 61, right associativity) : heap_scope.

(** [X[X ? bound] = v] on the object at [X]. *)
Definition setitem_at (t : R -> R -> bool) (X : loc) (bound v : value) : M unit :=
  (x <- load X ;;
   x' <- lift (setitem_where t x bound v) ;;
   store X x')%M.

(** ** klucher1979 *)

Definition klucher1979 (SurfTilt SurfAz DHI GHI SunZen SunAz : loc) : M value :=
  (dhi <- load DHI ;;
   setitem_at Rltb GHI dhi dhi ;;
   setitem_at Rltb GHI (Num 1e-06) (Num 1e-06) ;;
   tilt <- load SurfTilt ;;
   az <- load SurfAz ;;
   zen <- load SunZen ;;
   saz <- load SunAz ;;
   dhi <- load DHI ;;
   ghi <- load GHI ;;
   let COSTT := (cosd tilt * cosd zen
                 + sind tilt * sind zen * cosd (saz - az))%V in
   let F := (Num 1 - (dhi / ghi) ** 2)%V in
   let SkyDiffuse :=
     (dhi * (Num 0.5 * (Num 1 + cosd tilt))
      * (Num 1 + F * (sind (tilt / Num 2)) ** 3)
      * (Num 1 + F * (COSTT ** 2) * (sind zen) ** 3))%V in
   ret SkyDiffuse)%M.

(** ** reindl1990 *)

Definition reindl1990 (era : numpy_era)
    (SurfTilt SurfAz DHI DNI GHI HExtra SunZen SunAz : loc) : M value :=
  (let small := Num 1e-06 in
   tilt <- load SurfTilt ;;
   az <- load SurfAz ;;
   zen <- load SunZen ;;
   saz <- load SunAz ;;
   let COSTT := (cosd tilt * cosd zen
                 + sind tilt * sind zen * cosd (saz - az))%V in
   top <- lift (np_max era COSTT (PyInt 0)) ;;
   bot <- lift (np_max era (cosd zen) (PyFloat 0.01745)) ;;
   let RB := (top / bot)%V in
   dni <- load DNI ;;
   hextra <- load HExtra ;;
   let AI := (dni / hextra)%V in
   setitem_at Rltb GHI small small ;;
   dni <- load DNI ;;
   zen <- load SunZen ;;
   HB <- lift (setitem_where Rltb (dni * cosd zen)%V (Num 0) (Num 0)) ;;
   setitem_at Rltb GHI (Num 0) (Num 0) ;;
   ghi <- load GHI ;;
   let F := vmap sqrt (HB / ghi)%V in
   tilt <- load SurfTilt ;;
   let SCUBE := ((sind (tilt * Num 0.5)) ** 3)%V in
   dhi <- load DHI ;;
   let SkyDiffuse :=
     (dhi * (AI * RB
             + (Num 1 - AI) * Num 0.5 * (Num 1 + cosd tilt)
               * (Num 1 + F * SCUBE)))%V in
   ret SkyDiffuse)%M.

(** ** The Perez coefficient tables *)

(** The nested list literals of [coeffdict], entry by entry as the source
    writes them. *)
Module Table.

Definition allsitescomposite1990 : list (list R) :=
  [[ -0.0080;   0.5880;  -0.0620;  -0.0600;   0.0720;  -0.0220];
   [  0.1300;   0.6830;  -0.1510;  -0.0190;   0.0660;  -0.0290];
   [  0.3300;   0.4870;  -0.2210;   0.0550;  -0.0640;  -0.0260];
   [  0.5680;   0.1870;  -0.2950;   0.1090;  -0.1520;  -0.0140];
   [  0.8730;  -0.3920;  -0.3620;   0.2260;  -0.4620;   0.0010];
   [  1.1320;  -1.2370;  -0.4120;   0.2880;  -0.8230;   0.0560];
   [  1.0600;  -1.6000;  -0.3590;   0.2640;  -1.1270;   0.1310];
   [  0.6780;  -0.3270;  -0.2500;   0.1560;  -1.3770;   0.2510]].

Definition allsitescomposite1988 : list (list R) :=
  [[ -0.0180;   0.7050;   -0.071;        0;  -0.0580;   0.1020;  -0.0260];
   [  0.1910;   0.6450;  -0.1710;   0.0120;   0.0090;  -0.0270];
   [  0.4400;   0.3780;  -0.2560;   0.0870;  -0.1040;  -0.0250];
   [  0.7560;  -0.1210;  -0.3460;   0.1790;  -0.3210;  -0.0080];
   [  0.9960;  -0.6450;  -0.4050;   0.2600;  -0.5900;   0.0170];
   [  1.0980;  -1.2900;  -0.3930;   0.2690;  -0.8320;   0.0750];
   [  0.9730;  -1.1350;  -0.3780;   0.1240;  -0.2580;   0.1490];
   [  0.6890;  -0.4120;  -0.2730;   0.1990;  -1.6750;   0.2370]].

Definition sandiacomposite1988 : list (list R) :=
  [[ -0.1960;   1.0840;  -0.0060;  -0.1140;   0.1800;  -0.0190];
   [  0.2360;   0.5190;  -0.1800;  -0.0110;   0.0200;  -0.0380];
   [  0.4540;   0.3210;  -0.2550;   0.0720;  -0.0980;  -0.0460];
   [  0.8660;  -0.3810;  -0.3750;   0.2030;  -0.4030;  -0.0490];
   [  1.0260;  -0.7110;  -0.4260;   0.2730;  -0.6020;  -0.0610];
   [  0.9780;  -0.9860;  -0.3500;   0.2800;  -0.9150;  -0.0240];
   [  0.7480;  -0.9130;  -0.2360;   0.1730;  -1.0450;   0.0650];
   [  0.3180;  -0.7570;   0.1030;   0.0620;  -1.6980;   0.2360]].

Definition usacomposite1988 : list (list R) :=
  [[ -0.0340;   0.6710;  -0.0590;  -0.0590;   0.0860;  -0.0280];
   [  0.2550;   0.4740;  -0.1910;   0.0180;  -0.0140;  -0.0330];
   [  0.4270;   0.3490;  -0.2450;   0.0930;  -0.1210;  -0.0390];
   [  0.7560;  -0.2130;  -0.3280;   0.1750;  -0.3040;  -0.0270];
   [  1.0200;  -0.8570;  -0.3850;   0.2800;  -0.6380;  -0.0190];
   [  1.0500;  -1.3440;  -0.3480;   0.2800;  -0.8930;   0.0370];
   [  0.9740;  -1.5070;  -0.3700;   0.1540;  -0.5680;   0.1090];
   [  0.7440;  -1.8170;  -0.2560;   0.2460;  -2.6180;   0.2300]].

Definition france1988 : list (list R) :=
  [[  0.0130;   0.7640;  -0.1000;  -0.0580;   0.1270;  -0.0230];
   [  0.0950;   0.9200;  -0.1520;        0;   0.0510;  -0.0200];
   [  0.4640;   0.4210;  -0.2800;   0.0640;  -0.0510;  -0.0020];
   [  0.7590;  -0.0090;  -0.3730;   0.2010;  -0.3820;   0.0100];
   [  0.9760;  -0.4000;  -0.4360;   0.2710;  -0.6380;   0.0510];
   [  1.1760;  -1.2540;  -0.4620;   0.2950;  -0.9750;   0.1290];
   [  1.1060;  -1.5630;  -0.3980;   0.3010;  -1.4420;   0.2120];
   [  0.9340;  -1.5010;  -0.2710;   0.4200;  -2.9170;   0.2490]].

Definition phoenix1988 : list (list R) :=
  [[ -0.0030;   0.7280;  -0.0970;  -0.0750;   0.1420;  -0.0430];
   [  0.2790;   0.3540;  -0.1760;   0.0300;  -0.0550;  -0.0540];
   [  0.4690;   0.1680;  -0.2460;   0.0480;  -0.0420;  -0.0570];
   [  0.8560;  -0.5190;  -0.3400;   0.1760;  -0.3800;  -0.0310];
   [  0.9410;  -0.6250;  -0.3910;   0.1880;  -0.3600;  -0.0490];
   [  1.0560;  -1.1340;  -0.4100;   0.2810;  -0.7940;  -0.0650];
   [  0.9010;  -2.1390;  -0.2690;   0.1180;  -0.6650;   0.0460];
   [  0.1070;   0.4810;   0.1430;  -0.1110;  -0.1370;   0.2340]].

Definition elmonte1988 : list (list R) :=
  [[  0.0270;   0.7010;  -0.1190;  -0.0580;   0.1070;  -0.0600];
   [  0.1810;   0.6710;  -0.1780;  -0.0790;   0.1940;  -0.0350];
   [  0.4760;   0.4070;  -0.2880;   0.0540;  -0.0320;  -0.0550];
   [  0.8750;  -0.2180;  -0.4030;   0.1870;  -0.3090;  -0.0610];
   [  1.1660;  -1.0140;  -0.4540;   0.2110;  -0.4100;  -0.0440];
   [  1.1430;  -2.0640;  -0.2910;   0.0970;  -0.3190;   0.0530];
   [  1.0940;  -2.6320;  -0.2590;   0.0290;  -0.4220;   0.1470];
   [  0.1550;   1.7230;   0.1630;  -0.1310;  -0.0190;   0.2770]].

Definition osage1988 : list (list R) :=
  [[ -0.3530;   1.4740;   0.0570;  -0.1750;   0.3120;   0.0090];
   [  0.3630;   0.2180;  -0.2120;   0.0190;  -0.0340;  -0.0590];
   [ -0.0310;   1.2620;  -0.0840;  -0.0820;   0.2310;  -0.0170];
   [  0.6910;   0.0390;  -0.2950;   0.0910;  -0.1310;  -0.0350];
   [  1.1820;  -1.3500;  -0.3210;   0.4080;  -0.9850;  -0.0880];
   [  0.7640;   0.0190;  -0.2030;   0.2170;  -0.2940;  -0.1030];
   [  0.2190;   1.4120;   0.2440;   0.4710;  -2.9880;   0.0340];
   [  3.5780;  22.2310; -10.7450;   2.4260;   4.8920;  -5.6870]].

Definition albuquerque1988 : list (list R) :=
  [[  0.0340;   0.5010;  -0.0940;  -0.0630;   0.1060;  -0.0440];
   [  0.2290;   0.4670;  -0.1560;  -0.0050;  -0.0190;  -0.0230];
   [  0.4860;   0.2410;  -0.2530;   0.0530;  -0.0640;  -0.0220];
   [  0.8740;  -0.3930;  -0.3970;   0.1810;  -0.3270;  -0.0370];
   [  1.1930;  -1.2960;  -0.5010;   0.2810;  -0.6560;  -0.0450];
   [  1.0560;  -1.7580;  -0.3740;   0.2260;  -0.7590;   0.0340];
   [  0.9010;  -4.7830;  -0.1090;   0.0630;  -0.9700;   0.1960];
   [  0.8510;  -7.0550;  -0.0530;   0.0600;  -2.8330;   0.3300]].

Definition capecanaveral1988 : list (list R) :=
  [[  0.0750;   0.5330;  -0.1240;  -0.0670;   0.0420;  -0.0200];
   [  0.2950;   0.4970;  -0.2180;  -0.0080;   0.0030;  -0.0290];
   [  0.5140;   0.0810;  -0.2610;   0.0750;  -0.1600;  -0.0290];
   [  0.7470;  -0.3290;  -0.3250;   0.1810;  -0.4160;  -0.0300];
   [  0.9010;  -0.8830;  -0.2970;   0.1780;  -0.4890;   0.0080];
   [  0.5910;  -0.0440;  -0.1160;   0.2350;  -0.9990;   0.0980];
   [  0.5370;  -2.4020;   0.3200;   0.1690;  -1.9710;   0.3100];
   [ -0.8050;   4.5460;   1.0720;  -0.2580;  -0.9500;   0.7530]].

Definition albany1988 : list (list R) :=
  [[  0.0120;   0.5540;  -0.0760;  -0.0520;   0.0840;  -0.0290];
   [  0.2670;   0.4370;  -0.1940;   0.0160;   0.0220;  -0.0360];
   [  0.4200;   0.3360;  -0.2370;   0.0740;  -0.0520;  -0.0320];
   [  0.6380;  -0.0010;  -0.2810;   0.1380;  -0.1890;  -0.0120];
   [  1.0190;  -1.0270;  -0.3420;   0.2710;  -0.6280;   0.0140];
   [  1.1490;  -1.9400;  -0.3310;   0.3220;  -1.0970;   0.0800];
   [  1.4340;  -3.9940;  -0.4920;   0.4530;  -2.3760;   0.1170];
   [  1.0070;  -2.2920;  -0.4820;   0.3900;  -3.3680;   0.2290]].

End Table.

(** [coeffdict]: a dict literal with eleven distinct string keys, kept in
    source order. *)
Definition coeffdict : list (String.string * list (list R)) :=
  [("allsitescomposite1990"%string, Table.allsitescomposite1990);
   ("allsitescomposite1988"%string, Table.allsitescomposite1988);
   ("sandiacomposite1988"%string, Table.sandiacomposite1988);
   ("usacomposite1988"%string, Table.usacomposite1988);
   ("france1988"%string, Table.france1988);
   ("phoenix1988"%string, Table.phoenix1988);
   ("elmonte1988"%string, Table.elmonte1988);
   ("osage1988"%string, Table.osage1988);
   ("albuquerque1988"%string, Table.albuquerque1988);
   ("capecanaveral1988"%string, Table.capecanaveral1988);
   ("albany1988"%string, Table.albany1988)].

Fixpoint dict_get {A} (d : list (String.string * A)) (k : String.string)
    : result A :=
  match d with
  | [] => Raise KeyError
  | (k', a) :: d' => if String.eqb k k' then Ok a else dict_get d' k
  end.

(** ** Arrays *)

(** What [np.array] makes of a list of rows: a two-dimensional float
    array when the rows have one length, else (old numpy) a
    one-dimensional array whose elements are the row lists. *)
Inductive ndarray : Type :=
| Mat (rows : list (list R))
| ObjArr (rows : list (list R)).

Definition rectangular (rows : list (list R)) : bool :=
  match rows with
  | [] => true
  | r :: rs => forallb (fun r' => Nat.eqb (length r') (length r)) rs
  end.

Definition np_array (era : numpy_era) (rows : list (list R)) : result ndarray :=
  if rectangular rows then Ok (Mat rows)
  else match era with
       | Legacy => Ok (ObjArr rows)
       | Modern => Raise ValueError
       end.

Definition column (j : nat) (rows : list (list R)) : list R :=
  map (fun r => nth j r 0) rows.

Definition transpose (rows : list (list R)) : list (list R) :=
  match rows with
  | [] => []
  | r :: _ => map (fun j => column j rows) (seq 0 (length r))
  end.

(** [a.T]; a one-dimensional array is its own transpose. *)
Definition T (a : ndarray) : ndarray :=
  match a with
  | Mat rows => Mat (transpose rows)
  | ObjArr rows => ObjArr rows
  end.

(** [l[lo:hi]] with Python's clipping of the bounds. *)
Definition slice {A} (lo hi : nat) (l : list A) : list A :=
  firstn (hi - lo) (skipn lo l).

Definition nd_slice (lo hi : nat) (a : ndarray) : ndarray :=
  match a with
  | Mat rows => Mat (slice lo hi rows)
  | ObjArr rows => ObjArr (slice lo hi rows)
  end.

(** ** GetPerezCoefficients *)

Definition GetPerezCoefficients (era : numpy_era) (perezmodelt : String.string)
    : result (ndarray * ndarray) :=
  (rows <- dict_get coeffdict perezmodelt ;;
   array <- np_array era rows ;;
   let F1coeffs := T (nd_slice 0 3 (T array)) in
   let F2coeffs := T (nd_slice 3 7 (T array)) in
   Ok (F1coeffs, F2coeffs))%py.

(** ** Filtered Series *)

(** A Series that carries only part of the index of its call (the result
    of boolean indexing, of [dropna], of arithmetic between a filtered and
    a full Series), laid out on the full index: [None] at a label it does
    not carry or carries as NaN. *)
Definition fseries := list (option R).

(** A comparison of a value with a scalar: one boolean for a float, a
    boolean Series for a Series. *)
Inductive bvalue : Type :=
| BNum (b : bool)
| BSer (m : list bool).

Definition vcmp (t : R -> R -> bool) (v : value) (c : R) : bvalue :=
  match v with
  | Num x => BNum (t x c)
  | Ser s => BSer (map (fun x => t x c) s)
  end.

(** The labels of [s] where the mask holds. *)
Definition select (s : list R) (m : list bool) : fseries :=
  map2 (fun x (b : bool) => if b then Some x else None) s m.

(** [v[key]] with a boolean key.  A float cannot be subscripted; a Series
    keeps the labels where the key holds. *)
Definition getitem (v : value) (key : bvalue) : result fseries :=
  match v, key with
  | Num _, _ => Raise TypeError
  | Ser _, BNum _ => Raise KeyError
  | Ser s, BSer m => Ok (select s m)
  end.

(** Boolean indexing of a filtered Series: the key is reindexed to the
    labels the Series carries. *)
Definition fgetitem (a : fseries) (m : list bool) : fseries :=
  map2 (fun (x : option R) (b : bool) => if b then x else None) a m.

Definition fmap (f : R -> R) (a : fseries) : fseries := map (option_map f) a.

Definition lift2 (f : R -> R -> R) (x y : option R) : option R :=
  match x, y with
  | Some u, Some w => Some (f u w)
  | _, _ => None
  end.

Definition fmap2 (f : R -> R -> R) (a b : fseries) : fseries := map2 (lift2 f) a b.

(** Arithmetic between a filtered Series and a value: a scalar broadcasts;
    a full Series is aligned, and the labels the filtered one lacks come
    out as NaN. *)
Definition fvmap2 (f : R -> R -> R) (a : fseries) (v : value) : fseries :=
  match v with
  | Num y => fmap (fun x => f x y) a
  | Ser s => map2 (fun (x : option R) y => option_map (fun u => f u y) x) a s
  end.

(** [a.reindex_like(other)]: the labels of [other], NaN where [a] has
    none. *)
Definition reindex_like (a : fseries) (other : value) : result fseries :=
  match other with
  | Num _ => Raise TypeError
  | Ser s => Ok (map (fun i => nth i a None) (seq 0 (length s)))
  end.

(** Masks from comparisons on a filtered Series (NaN compares false). *)
Definition fcmp (t : R -> R -> bool) (a : fseries) (c : R) : list bool :=
  map (fun x => match x with Some u => t u c | None => false end) a.

Definition Rgeb (x y : R) : bool := Rleb y x.
Definition Rgtb (x y : R) : bool := Rltb y x.

(** [ebin[mask] = k] *)
Definition bin_set (ebin : list Z) (mask : list bool) (k : Z) : list Z :=
  map2 (fun x (b : bool) => if b then k else x) ebin mask.

(** [F1c[ebin, c]]: row [ebin], column [c], for every label [ebin]
    carries.  A one-dimensional array takes one index only. *)
Fixpoint take_cell (rows : list (list R)) (c : nat) (ebin : list (option Z))
    : result fseries :=
  match ebin with
  | [] => Ok []
  | None :: rest => (tl <- take_cell rows c rest ;; Ok (None :: tl))%py
  | Some r :: rest =>
      if (r <? 0)%Z then Raise IndexError
      else match nth_error rows (Z.to_nat r) with
           | None => Raise IndexError
           | Some row =>
               match nth_error row c with
               | None => Raise IndexError
               | Some x => (tl <- take_cell rows c rest ;; Ok (Some x :: tl))%py
               end
           end
  end.

Definition fancy (a : ndarray) (ebin : list (option Z)) (c : nat) : result fseries :=
  match a with
  | ObjArr _ => Raise IndexError
  | Mat rows => take_cell rows c ebin
  end.

Definition series_len (v : value) : result nat :=
  match v with
  | Num _ => Raise TypeError
  | Ser s => Ok (length s)
  end.

(** ** perez *)

(** The keyword default of [perez]: [modelt='allsitescomposite1990']. *)
Definition modelt_or_default (modelt : option String.string) : String.string :=
  match modelt with
  | Some m => m
  | None => "allsitescomposite1990"%string
  end.

(** The statements of [perez], in source order.  The pure stretches of
    the body are named after the variable they compute. *)

(** [Dhfilter] and [e]: the clearness, on the labels where [DHI > 0]. *)
Definition perez_e (kappa : R) (dhi dni z zen : value) : result fseries :=
  (let Dhfilter := vcmp Rgtb dhi 0 in
   dhi_f <- getitem dhi Dhfilter ;;
   dni_f <- getitem dni Dhfilter ;;
   z_f <- getitem z Dhfilter ;;
   let kz3 := fmap (fun x => kappa * x) (fmap (fun x => x ^ 3) z_f) in
   den <- reindex_like (fmap (fun x => 1 + x) kz3) zen ;;
   Ok (fmap2 Rdiv
         (fmap2 Rplus (fmap2 Rdiv (fmap2 Rplus dhi_f dni_f) dhi_f) kz3)
         den))%py.

(** [ebin], from [np.zeros] through the eight masked assignments. *)
Definition perez_ebin (n : nat) (e : fseries) : list Z :=
  let ebin := repeat 0%Z n in
  let ebin := bin_set ebin (fcmp Rltb e 1.065) 1 in
  let ebin := bin_set ebin (map2 andb (fcmp Rgeb e 1.065) (fcmp Rltb e 1.23)) 2 in
  let ebin := bin_set ebin (map2 andb (fcmp Rgeb e 1.23) (fcmp Rltb e 1.5)) 3 in
  let ebin := bin_set ebin (map2 andb (fcmp Rgeb e 1.5) (fcmp Rltb e 1.95)) 4 in
  let ebin := bin_set ebin (map2 andb (fcmp Rgeb e 1.95) (fcmp Rltb e 2.8)) 5 in
  let ebin := bin_set ebin (map2 andb (fcmp Rgeb e 2.8) (fcmp Rltb e 4.5)) 6 in
  let ebin := bin_set ebin (map2 andb (fcmp Rgeb e 4.5) (fcmp Rltb e 6.2)) 7 in
  let ebin := bin_set ebin (fcmp Rgeb e 6.2) 8 in
  ebin.

(** [F1] from [F1c] (and [F2] from [F2c], the same statements):
    [Fc[ebin,0] + Fc[ebin,1]*delt[ebinfilter] + Fc[ebin,2]*z[ebinfilter]],
    then [F[F<0]=0]. *)
Definition perez_F (Fc : ndarray) (ebin : list (option Z))
    (ebinfilter : list bool) (delt z : value) : result fseries :=
  (c0 <- fancy Fc ebin 0 ;;
   c1 <- fancy Fc ebin 1 ;;
   delt_f <- getitem delt (BSer ebinfilter) ;;
   c2 <- fancy Fc ebin 2 ;;
   z_f <- getitem z (BSer ebinfilter) ;;
   let F := fmap2 Rplus (fmap2 Rplus c0 (fmap2 Rmult c1 delt_f))
                        (fmap2 Rmult c2 z_f) in
   Ok (fmap (fun x => if Rltb x 0 then 0 else x) F))%py.

(** [SkyDiffuse], with its floor at 0. *)
Definition perez_SkyDiffuse (dhi A B : value) (F1 F2 : fseries)
    (ebinfilter : list bool) (tilt : value) : result fseries :=
  (dhi_f <- getitem dhi (BSer ebinfilter) ;;
   let F1_f := fgetitem F1 ebinfilter in
   A_f <- getitem A (BSer ebinfilter) ;;
   B_f <- getitem B (BSer ebinfilter) ;;
   let F2_f := fgetitem F2 ebinfilter in
   let SkyDiffuse :=
     fmap2 Rmult dhi_f
       (fmap2 Rplus
          (fmap2 Rplus
             (fvmap2 Rmult
                (fmap (fun x => 0.5 * x) (fmap (fun x => 1 - x) F1_f))
                (Num 1 + cosd tilt)%V)
             (fmap2 Rdiv (fmap2 Rmult F1_f A_f) B_f))
          (fvmap2 Rmult F2_f (sind tilt))) in
   Ok (fmap (fun x => if Rleb x 0 then 0 else x) SkyDiffuse))%py.

Definition perez (era : numpy_era)
    (SurfTilt SurfAz DHI DNI HExtra SunZen SunAz AM : loc)
    (modelt : option String.string) : M fseries :=
  (let modelt := modelt_or_default modelt in
   let kappa := 1.041 in
   zen <- load SunZen ;;
   let z := (zen * Num PI / Num 180)%V in
   dhi <- load DHI ;;
   dni <- load DNI ;;
   e <- lift (perez_e kappa dhi dni z zen) ;;
   n <- lift (series_len dhi) ;;
   let ebin := perez_ebin n e in
   let ebinfilter := map (fun k => (0 <? k)%Z) ebin in
   let ebin := map (fun k => (k - 1)%Z) ebin in
   let ebin := map2 (fun k (b : bool) => if b then Some k else None)
                 ebin ebinfilter in
   setitem_at Reqb HExtra (Num 0) (Num 0.00000001) ;;
   dhi <- load DHI ;;
   am <- load AM ;;
   hextra <- load HExtra ;;
   let delt := (dhi * am / hextra)%V in
   coeffs <- lift (GetPerezCoefficients era modelt) ;;
   let (F1c, F2c) := (coeffs : ndarray * ndarray) in
   F1 <- lift (perez_F F1c ebin ebinfilter delt z) ;;
   F2 <- lift (perez_F F2c ebin ebinfilter delt z) ;;
   tilt <- load SurfTilt ;;
   az <- load SurfAz ;;
   zen <- load SunZen ;;
   saz <- load SunAz ;;
   A <- lift (setitem_where Rltb
                (cosd tilt * cosd zen
                 + sind tilt * sind zen * cosd (saz - az))%V
                (Num 0) (Num 0)) ;;
   B <- lift (setitem_where Rltb (cosd zen) (cosd (Num 85)) (cosd (Num 85))) ;;
   dhi <- load DHI ;;
   SkyDiffuse <- lift (perez_SkyDiffuse dhi A B F1 F2 ebinfilter tilt) ;;
   ret SkyDiffuse)%M.

(** ** Calls with distinct argument objects *)

(** A call whose arguments are separate objects: the heap holds them in
    parameter order, and the outcome pairs the returned value with the
    heap the caller is left with. *)
Definition call_klucher1979 (SurfTilt SurfAz DHI GHI SunZen SunAz : value)
    : result value * heap :=
  klucher1979 0%nat 1%nat 2%nat 3%nat 4%nat 5%nat
    [SurfTilt; SurfAz; DHI; GHI; SunZen; SunAz].

Definition call_reindl1990 (era : numpy_era)
    (SurfTilt SurfAz DHI DNI GHI HExtra SunZen SunAz : value)
    : result value * heap :=
  reindl1990 era 0%nat 1%nat 2%nat 3%nat 4%nat 5%nat 6%nat 7%nat
    [SurfTilt; SurfAz; DHI; DNI; GHI; HExtra; SunZen; SunAz].

Definition call_perez (era : numpy_era)
    (SurfTilt SurfAz DHI DNI HExtra SunZen SunAz AM : value)
    (modelt : option String.string) : result fseries * heap :=
  perez era 0%nat 1%nat 2%nat 3%nat 4%nat 5%nat 6%nat 7%nat modelt
    [SurfTilt; SurfAz; DHI; DNI; HExtra; SunZen; SunAz; AM].

(** ** The formulas of the specification, per element *)

Module Spec.

(** Orbital correction factor with the coefficient [c5] on [sin(2B)]. *)
Definition Rfact (c5 B : R) : R :=
  1.00011 + 0.034221 * cos B + 0.00128 * sin B
  + 0.000719 * cos (2 * B) + c5 * sin (2 * B).

(** Cosine of the angle of incidence. *)
Definition COSTT (tilt az zen saz : R) : R :=
  cos (radians tilt) * cos (radians zen)
  + sin (radians tilt) * sin (radians zen) * cos (radians (saz - az)).

(** Beam-transposition ratio, floored element by element. *)
Definition RB (tilt az zen saz : R) : R :=
  Rmax (COSTT tilt az zen saz) 0 / Rmax (cos (radians zen)) 0.01745.

Definition haydavies (tilt az dhi dni hextra zen saz : R) : R :=
  let AI := dni / hextra in
  dhi * (AI * RB tilt az zen saz
         + (1 - AI) * 0.5 * (1 + cos (radians tilt))).

(** The two clamps of Klucher's model. *)
Definition klucher_GHI (dhi ghi : R) : R := Rmax (Rmax ghi dhi) 1e-6.

Definition klucher (tilt az dhi ghi zen saz : R) : R :=
  let g := klucher_GHI dhi ghi in
  let F := 1 - (dhi / g) ^ 2 in
  dhi * 0.5 * (1 + cos (radians tilt))
  * (1 + F * sin (radians (tilt / 2)) ^ 3)
  * (1 + F * COSTT tilt az zen saz ^ 2 * sin (radians zen) ^ 3).

Definition reindl_GHI (ghi : R) : R := Rmax (Rmax ghi 1e-6) 0.

Definition reindl (tilt az dhi dni ghi hextra zen saz : R) : R :=
  let AI := dni / hextra in
  let HB := Rmax (dni * cos (radians zen)) 0 in
  let F := sqrt (HB / reindl_GHI ghi) in
  let SCUBE := sin (radians (tilt / 2)) ^ 3 in
  dhi * (AI * RB tilt az zen saz
         + (1 - AI) * 0.5 * (1 + cos (radians tilt)) * (1 + F * SCUBE)).

(** The eleven model names of the external interface. *)
Definition model_names : list String.string :=
  ["allsitescomposite1990"; "allsitescomposite1988"; "sandiacomposite1988";
   "usacomposite1988"; "france1988"; "phoenix1988"; "elmonte1988";
   "osage1988"; "albuquerque1988"; "capecanaveral1988"; "albany1988"]%string.

(** An 8 x 6 table. *)
Definition is_8x6 (rows : list (list R)) : bool :=
  Nat.eqb (length rows) 8%nat && forallb (fun r => Nat.eqb (length r) 6%nat) rows.

(** Sky clearness, for the zenith [z] in radians. *)
Definition clearness (dhi dni z : R) : R :=
  ((dhi + dni) / dhi + 1.041 * z ^ 3) / (1 + 1.041 * z ^ 3).

(** The clearness bin, 1 to 8, by the breakpoints
    1.065, 1.23, 1.5, 1.95, 2.8, 4.5, 6.2. *)
Definition bin_of (e : R) : Z :=
  if Rltb e 1.065 then 1
  else if Rltb e 1.23 then 2
  else if Rltb e 1.5 then 3
  else if Rltb e 1.95 then 4
  else if Rltb e 2.8 then 5
  else if Rltb e 4.5 then 6
  else if Rltb e 6.2 then 7
  else 8.

(** [max(0, f1 + f2 delta + f3 z)] with the coefficients in columns
    [k], [k+1], [k+2] of a table row. *)
Definition perez_F (row : list R) (k : nat) (delt z : R) : R :=
  Rmax (nth k row 0 + nth (k + 1) row 0 * delt + nth (k + 2) row 0 * z) 0.

(** The Perez model at one label with [DHI > 0], on the table [rows]. *)
Definition perez (rows : list (list R))
    (tilt az dhi dni hextra zen saz am : R) : R :=
  let z := zen * PI / 180 in
  let e := clearness dhi dni z in
  let row := nth (Z.to_nat (bin_of e - 1)) rows [] in
  let delt := dhi * am / (if Reqb hextra 0 then 0.00000001 else hextra) in
  let F1 := perez_F row 0 delt z in
  let F2 := perez_F row 3 delt z in
  let A := Rmax (COSTT tilt az zen saz) 0 in
  let B := Rmax (cos (radians zen)) (cos (radians 85)) in
  Rmax (dhi * (0.5 * (1 - F1) * (1 + cos (radians tilt))
               + F1 * A / B + F2 * sin (radians tilt))) 0.

End Spec.

(** ** Notions used in the statements about perez *)

(** The cells [rows[r][c]] for the bins [r] a filtered Series carries. *)
Definition cells (rows : list (list R)) (c : nat) (ebin : list (option Z))
    : fseries :=
  map (option_map (fun r => nth c (nth (Z.to_nat r) rows []) 0)) ebin.

(** A bin, where present, indexes one of [n] rows. *)
Definition bin_in_range (n : nat) (o : option Z) : Prop :=
  match o with
  | Some r => (0 <= r < Z.of_nat n)%Z
  | None => True
  end.

(** A label that is absent, or carries a non-negative number. *)
Definition nonneg (o : option R) : Prop :=
  match o with
  | Some v => 0 <= v
  | None => True
  end.

(** The incidence cosine, as [haydavies1980], [klucher1979], [reindl1990]
    and [perez] all write it. *)
Definition COSTT (tilt az zen saz : value) : value :=
  (cosd tilt * cosd zen + sind tilt * sind zen * cosd (saz - az))%V.

(** [m] is the largest element of [v]. *)
Definition is_max (m : R) (v : value) : Prop :=
  (exists k, elt v k = Some m) /\ forall k x, elt v k = Some x -> x <= m.

(** * Properties *)

(** ** Elements of broadcast arithmetic *)

Lemma nth_error_map2 {A B C} (f : A -> B -> C) l m i :
  nth_error (map2 f l m) i =
  match nth_error l i, nth_error m i with
  | Some a, Some b => Some (f a b)
  | _, _ => None
  end.
Proof.
  revert m i; induction l as [|a l IH]; intros [|b m] [|i]; simpl; auto.
  destruct (nth_error l i); reflexivity.
Qed.

Lemma elt_vmap f v i : elt (vmap f v) i = option_map f (elt v i).
Proof. destruct v; simpl; [reflexivity | apply nth_error_map]. Qed.

Lemma elt_vmap2 f a b i :
  elt (vmap2 f a b) i = lift2 f (elt a i) (elt b i).
Proof.
  destruct a as [x|s], b as [y|t]; simpl; auto.
  - rewrite nth_error_map; destruct (nth_error t i); reflexivity.
  - rewrite nth_error_map; destruct (nth_error s i); reflexivity.
  - apply nth_error_map2.
Qed.

Lemma is_series_vmap2 f a b :
  is_series (vmap2 f a b) = is_series a || is_series b.
Proof. destruct a, b; reflexivity. Qed.

Lemma is_series_vmap f a : is_series (vmap f a) = is_series a.
Proof. destruct a; reflexivity. Qed.

(** Rewriting an element of an arithmetic expression down to the elements
    of its operands. *)
Ltac elts :=
  unfold vadd, vsub, vmul, vdiv, vpow, cosd, sind;
  repeat (rewrite elt_vmap2 || rewrite elt_vmap).

(** ** Angles and small arguments *)

Lemma radians_0 : radians 0 = 0.
Proof. unfold radians; lra. Qed.

Lemma PI_gt_3 : 3 < PI.
Proof. pose proof PI2_3_2; lra. Qed.

Lemma cos_ge_quadratic x : - PI / 2 <= x <= PI / 2 -> 1 - x * x / 2 <= cos x.
Proof.
  intros [Hl Hu].
  destruct (cos_bound x 0 Hl Hu) as [H _].
  unfold cos_approx, cos_term in H; simpl in H.
  lra.
Qed.

Lemma small_angle x :
  0 < x <= 1 / 10 ->
  1 - x * x / 2 <= cos x <= 1 /\ 0 < sin x < x.
Proof.
  intros [H0 H1]. pose proof PI_gt_3 as HPI.
  repeat split.
  - apply cos_ge_quadratic; lra.
  - apply COS_bound.
  - apply sin_gt_0; lra.
  - apply sin_lt_x; lra.
Qed.

(** ** extraradiation *)

Lemma extraradiation_elt doy i d :
  elt doy i = Some d ->
  elt (extraradiation doy) i =
  Some (1367 * Spec.Rfact 0.000077 (2 * PI * d / 365)).
Proof.
  intros H. unfold extraradiation. elts. rewrite H. simpl.
  unfold Spec.Rfact. f_equal. lra.
Qed.

Lemma day1_bounds :
  1413.9 < 1367 * Spec.Rfact 0.000077 (2 * PI * 1 / 365) < 1415.9.
Proof.
  pose proof PI_gt_3 as H3. pose proof PI_4 as H4.
  set (B := 2 * PI * 1 / 365).
  assert (HB : 6 / 365 < B <= 8 / 365) by (unfold B; lra).
  destruct (small_angle B) as [[Hc1 Hc2] [Hs1 Hs2]]; [lra|].
  destruct (small_angle (2 * B)) as [[Hd1 Hd2] [Ht1 Ht2]]; [lra|].
  assert (HBB : B * B <= (8/365) * (8/365)) by nra.
  unfold Spec.Rfact. split; nra.
Qed.

(** C8, as the code has it: for every day of year in [1, 366] the result
    is [1367 * Rfact] with
    [Rfact = 1.00011 + 0.034221 cos B + 0.00128 sin B + 0.000719 cos 2B
             + 0.000077 sin 2B] and [B = 2 pi day / 365]
    (the last coefficient is 7.7e-05), and for day 1 the result lies
    within 1 W/m2 of 1414.9. *)
Theorem extraradiation_fourier doy i d :
  (1 <= d <= 366)%Z ->
  elt doy i = Some (IZR d) ->
  elt (extraradiation doy) i =
    Some (1367 * Spec.Rfact 0.000077 (2 * PI * IZR d / 365))
  /\ exists ea, extraradiation (Num 1) = Num ea /\ Rabs (ea - 1414.9) < 1.
Proof.
  intros _ H. split.
  - apply extraradiation_elt, H.
  - exists (1367 * Spec.Rfact 0.000077 (2 * PI * 1 / 365)). split.
    + pose proof (extraradiation_elt (Num 1) 0 1 eq_refl) as He.
      unfold extraradiation in *; simpl in *. congruence.
    + pose proof day1_bounds. apply Rabs_def1; lra.
Qed.

Lemma extraradiation_fourier_witness :
  elt (extraradiation (Ser [1; 366])) 1 =
    Some (1367 * Spec.Rfact 0.000077 (2 * PI * IZR 366 / 365))
  /\ exists ea, extraradiation (Num 1) = Num ea /\ Rabs (ea - 1414.9) < 1.
Proof.
  apply (extraradiation_fourier (Ser [1; 366]) 1 366); [lia | reflexivity].
Defined.

(** C8 as the specification words it, with 0.0000077 on [sin 2B], does not
    hold: on day 1 the code returns another number. *)
Lemma extraradiation_spec_coefficient_refuted :
  extraradiation (Num 1) <>
  Num (1367 * Spec.Rfact 0.0000077 (2 * PI * 1 / 365)).
Proof.
  intros H.
  pose proof (extraradiation_elt (Num 1) 0 1 eq_refl) as He.
  rewrite H in He; simpl in He. injection He as He.
  unfold Spec.Rfact in He.
  pose proof PI_gt_3 as H3. pose proof PI_4 as H4.
  destruct (small_angle (2 * (2 * PI * 1 / 365))) as [_ [Hs _]]; [lra|].
  lra.
Qed.

(** ** globalinplane *)

Lemma globalinplane_ok SurfTilt SurfAz AOI DNI Sky GR :
  is_series AOI || is_series DNI || is_series Sky || is_series GR = true ->
  globalinplane SurfTilt SurfAz AOI DNI Sky GR =
  Ok (mk_in_plane (DNI * vmap cos (vmap radians AOI) + Sky + GR)%V
                  (DNI * vmap cos (vmap radians AOI))%V
                  (Sky + GR)%V).
Proof.
  intros Hser. unfold globalinplane, DataFrame3.
  match goal with |- context [if ?c then _ else _] => assert (Hc : c = true) end.
  { unfold vadd, vmul. rewrite !is_series_vmap2, !is_series_vmap.
    destruct (is_series AOI), (is_series DNI), (is_series Sky), (is_series GR);
      try reflexivity; discriminate. }
  rewrite Hc. reflexivity.
Qed.

(** C9: on a call that carries at least one Series, the returned frame
    has, at every position, [Eb = DNI * cos(radians AOI)],
    [Ediff = In_Plane_SkyDiffuse + GR] and [E = Eb + Ediff]; where
    [AOI = 0], [Eb = DNI] and [E = DNI + In_Plane_SkyDiffuse + GR]. *)
Theorem globalinplane_components SurfTilt SurfAz AOI DNI Sky GR :
  is_series AOI || is_series DNI || is_series Sky || is_series GR = true ->
  exists df,
    globalinplane SurfTilt SurfAz AOI DNI Sky GR = Ok df /\
    forall i aoi dni sky gr,
      elt AOI i = Some aoi -> elt DNI i = Some dni ->
      elt Sky i = Some sky -> elt GR i = Some gr ->
      exists e eb ediff,
        elt (E df) i = Some e /\ elt (Eb df) i = Some eb /\
        elt (Ediff df) i = Some ediff /\
        eb = dni * cos (radians aoi) /\
        ediff = sky + gr /\
        e = eb + ediff /\
        (aoi = 0 -> eb = dni /\ e = dni + sky + gr).
Proof.
  intros Hser. eexists; split; [apply globalinplane_ok, Hser|]. simpl.
  intros i aoi dni sky gr Ha Hd Hs Hg.
  exists (dni * cos (radians aoi) + sky + gr), (dni * cos (radians aoi)),
         (sky + gr).
  elts. rewrite Ha, Hd, Hs, Hg; simpl.
  repeat (split; [reflexivity || lra|]).
  intros ->. rewrite radians_0, cos_0. split; lra.
Qed.

Lemma globalinplane_components_witness :
  exists df,
    globalinplane (Num 30) (Num 180) (Ser [0; 60]) (Ser [800; 700])
                  (Ser [100; 90]) (Num 20) = Ok df /\
    forall i aoi dni sky gr,
      elt (Ser [0; 60]) i = Some aoi -> elt (Ser [800; 700]) i = Some dni ->
      elt (Ser [100; 90]) i = Some sky -> elt (Num 20) i = Some gr ->
      exists e eb ediff,
        elt (E df) i = Some e /\ elt (Eb df) i = Some eb /\
        elt (Ediff df) i = Some ediff /\
        eb = dni * cos (radians aoi) /\
        ediff = sky + gr /\
        e = eb + ediff /\
        (aoi = 0 -> eb = dni /\ e = dni + sky + gr).
Proof.
  apply (globalinplane_components (Num 30) (Num 180) (Ser [0; 60])
           (Ser [800; 700]) (Ser [100; 90]) (Num 20)).
  reflexivity.
Defined.

Lemma cos_radians_obtuse aoi : 90 < aoi <= 180 -> cos (radians aoi) < 0.
Proof.
  intros [Hl Hu]. pose proof PI_RGT_0 as Hpi.
  apply cos_lt_0; unfold radians; nra.
Qed.

(** C10: where [90 < AOI <= 180] and [DNI > 0], the returned beam
    component [Eb = DNI * cos(radians AOI)] is strictly negative and the
    returned total [E] is strictly below the returned [Ediff]. *)
Theorem globalinplane_beam_negative SurfTilt SurfAz AOI DNI Sky GR
    i aoi dni sky gr :
  is_series AOI || is_series DNI || is_series Sky || is_series GR = true ->
  elt AOI i = Some aoi -> elt DNI i = Some dni ->
  elt Sky i = Some sky -> elt GR i = Some gr ->
  90 < aoi <= 180 -> 0 < dni ->
  exists df e eb ediff,
    globalinplane SurfTilt SurfAz AOI DNI Sky GR = Ok df /\
    elt (E df) i = Some e /\ elt (Eb df) i = Some eb /\
    elt (Ediff df) i = Some ediff /\
    eb = dni * cos (radians aoi) /\ eb < 0 /\ e < ediff.
Proof.
  intros Hser Ha Hd Hs Hg Haoi Hdni.
  pose proof (cos_radians_obtuse aoi Haoi) as Hcos.
  eexists. exists (dni * cos (radians aoi) + sky + gr),
    (dni * cos (radians aoi)), (sky + gr).
  split; [apply globalinplane_ok, Hser|]. simpl.
  elts. rewrite Ha, Hd, Hs, Hg; simpl.
  repeat (split; [reflexivity|]). split; nra.
Qed.

Lemma globalinplane_beam_negative_witness :
  exists df e eb ediff,
    globalinplane (Num 30) (Num 180) (Ser [120]) (Ser [800]) (Ser [100])
                  (Ser [20]) = Ok df /\
    elt (E df) 0 = Some e /\ elt (Eb df) 0 = Some eb /\
    elt (Ediff df) 0 = Some ediff /\
    eb = 800 * cos (radians 120) /\ eb < 0 /\ e < ediff.
Proof.
  apply (globalinplane_beam_negative (Num 30) (Num 180) (Ser [120])
           (Ser [800]) (Ser [100]) (Ser [20]) 0 120 800 100 20);
    try reflexivity; lra.
Defined.

(** ** Item assignment under a mask *)

Lemma Rltb_Rmax x y : (if Rltb x y then y else x) = Rmax x y.
Proof.
  unfold Rltb, Rmax. destruct (Rlt_dec x y), (Rle_dec x y); lra.
Qed.

Lemma nth_error_assign_from t k s bound v i :
  nth_error (assign_from t k s bound v) i =
  match nth_error s i with
  | None => None
  | Some x =>
      Some (match elt bound (k + i), elt v (k + i) with
            | Some b, Some y => if t x b then y else x
            | _, _ => x
            end)
  end.
Proof.
  revert k i; induction s as [|x s IH]; intros k [|i]; simpl; auto.
  - rewrite Nat.add_0_r. reflexivity.
  - rewrite IH. replace (S k + i)%nat with (k + S i)%nat by lia. reflexivity.
Qed.

Lemma length_assign_from t k s bound v :
  length (assign_from t k s bound v) = length s.
Proof. revert k; induction s; simpl; auto. Qed.

(** [x[x < b] = b] leaves [max x b] at every position. *)
Lemma clamp_elt s bound i x b :
  nth_error s i = Some x -> elt bound i = Some b ->
  nth_error (assign_from Rltb 0 s bound bound) i = Some (Rmax x b).
Proof.
  intros Hs Hb. rewrite nth_error_assign_from, Hs. simpl. rewrite Hb.
  now rewrite Rltb_Rmax.
Qed.

(** ** klucher1979 *)

(** The statements of [klucher1979] run on a call with separate argument
    objects: the returned expression, and the heap left behind. *)
Lemma call_klucher1979_eq tilt az dhi g zen saz :
  call_klucher1979 tilt az dhi (Ser g) zen saz =
  (let ghi :=
     Ser (assign_from Rltb 0 (assign_from Rltb 0 g dhi dhi)
            (Num 1e-06) (Num 1e-06)) in
   let COSTT := (cosd tilt * cosd zen
                 + sind tilt * sind zen * cosd (saz - az))%V in
   let F := (Num 1 - (dhi / ghi) ** 2)%V in
   (Ok (dhi * (Num 0.5 * (Num 1 + cosd tilt))
        * (Num 1 + F * (sind (tilt / Num 2)) ** 3)
        * (Num 1 + F * (COSTT ** 2) * (sind zen) ** 3))%V,
    [tilt; az; dhi; ghi; zen; saz])).
Proof. reflexivity. Qed.

Lemma klucher_GHI_elt dhi g i d gh :
  elt dhi i = Some d -> nth_error g i = Some gh ->
  nth_error (assign_from Rltb 0 (assign_from Rltb 0 g dhi dhi)
               (Num 1e-06) (Num 1e-06)) i
  = Some (Spec.klucher_GHI d gh).
Proof.
  intros Hd Hg. unfold Spec.klucher_GHI.
  apply clamp_elt; [|reflexivity]. apply clamp_elt; assumption.
Qed.

(** C5: on aligned arguments, at every position, GHI is clamped to
    [max(GHI, DHI)] and then to
    [max(GHI, 1e-6)], and with [F = 1 - (DHI/GHI)^2] the returned
    SkyDiffuse is
    [DHI * 0.5 * (1 + cos tilt) * (1 + F sin^3(tilt/2))
         * (1 + F COSTT^2 sin^3(zenith))]. *)
Theorem klucher1979_formula tilt az dhi g zen saz i t a d gh z s :
  shape (length g) tilt -> shape (length g) az -> shape (length g) dhi ->
  shape (length g) zen -> shape (length g) saz ->
  elt tilt i = Some t -> elt az i = Some a -> elt dhi i = Some d ->
  nth_error g i = Some gh -> elt zen i = Some z -> elt saz i = Some s ->
  exists sky h,
    call_klucher1979 tilt az dhi (Ser g) zen saz = (Ok sky, h) /\
    elt sky i = Some (Spec.klucher t a d gh z s) /\
    Spec.klucher t a d gh z s =
      (let ghi := Rmax (Rmax gh d) 1e-6 in
       let F := 1 - (d / ghi) ^ 2 in
       d * 0.5 * (1 + cos (radians t))
       * (1 + F * sin (radians (t / 2)) ^ 3)
       * (1 + F * Spec.COSTT t a z s ^ 2 * sin (radians z) ^ 3)).
Proof.
  intros _ _ _ _ _ Ht Ha Hd Hg Hz Hs.
  rewrite call_klucher1979_eq. cbv zeta.
  eexists; eexists; split; [reflexivity|]. split; [|reflexivity].
  pose proof (klucher_GHI_elt dhi g i d gh Hd Hg) as Hghi.
  change (nth_error ?l i) with (elt (Ser l) i) in Hghi.
  elts. rewrite Hghi, Ht, Ha, Hd, Hz, Hs. simpl.
  unfold Spec.klucher, Spec.COSTT, radians. f_equal. ring.
Qed.

Lemma klucher1979_formula_witness :
  exists sky h,
    call_klucher1979 (Num 30) (Num 180) (Ser [100; 120]) (Ser [500; 80])
                     (Ser [40; 70]) (Ser [170; 200]) = (Ok sky, h) /\
    elt sky 1 = Some (Spec.klucher 30 180 120 80 70 200) /\
    Spec.klucher 30 180 120 80 70 200 =
      (let ghi := Rmax (Rmax 80 120) 1e-6 in
       let F := 1 - (120 / ghi) ^ 2 in
       120 * 0.5 * (1 + cos (radians 30))
       * (1 + F * sin (radians (30 / 2)) ^ 3)
       * (1 + F * Spec.COSTT 30 180 70 200 ^ 2 * sin (radians 70) ^ 3)).
Proof.
  apply (klucher1979_formula (Num 30) (Num 180) (Ser [100; 120])
           [500; 80] (Ser [40; 70]) (Ser [170; 200]) 1);
    first [reflexivity | exact I].
Defined.

(** What the call leaves in the caller's objects: only GHI changes, and it
    holds the clamped values. *)
Lemma klucher1979_heap tilt az dhi g zen saz :
  exists g',
    snd (call_klucher1979 tilt az dhi (Ser g) zen saz)
    = [tilt; az; dhi; Ser g'; zen; saz] /\
    length g' = length g /\
    forall i d gh, elt dhi i = Some d -> nth_error g i = Some gh ->
                   nth_error g' i = Some (Rmax (Rmax gh d) 1e-6).
Proof.
  rewrite call_klucher1979_eq. cbv zeta. simpl.
  eexists; split; [reflexivity|]. split.
  - now rewrite !length_assign_from.
  - intros i d gh Hd Hg. apply (klucher_GHI_elt dhi g i d gh Hd Hg).
Qed.

(** Settling the comparisons of a computation on concrete numbers,
    innermost first. *)
Ltac decide_R_step :=
  match goal with
  | |- context [Rlt_dec ?x ?y] =>
      first [ destruct (Rlt_dec x y) as [?|?]; [|exfalso; lra]
            | destruct (Rlt_dec x y) as [?|?]; [exfalso; lra|] ]
  | |- context [Rle_dec ?x ?y] =>
      first [ destruct (Rle_dec x y) as [?|?]; [|exfalso; lra]
            | destruct (Rle_dec x y) as [?|?]; [exfalso; lra|] ]
  | |- context [Req_dec_T ?x ?y] =>
      first [ destruct (Req_dec_T x y) as [?|?]; [|exfalso; lra]
            | destruct (Req_dec_T x y) as [?|?]; [exfalso; lra|] ]
  end.

Ltac decide_R := repeat (decide_R_step; cbv iota).

(** C4 at a concrete call: GHI = [50; 0] is passed with DHI = [100; 0];
    after [klucher1979] returns, the caller's GHI holds [100; 1e-6]. *)
Theorem klucher1979_overwrites_GHI :
  snd (call_klucher1979 (Num 30) (Num 180) (Ser [100; 0]) (Ser [50; 0])
                        (Ser [30; 95]) (Num 180))
  = [Num 30; Num 180; Ser [100; 0]; Ser [100; 1e-6]; Ser [30; 95]; Num 180]
  /\ Ser [100; 1e-6] <> Ser [50; 0].
Proof.
  split.
  - rewrite call_klucher1979_eq. cbv zeta. simpl. unfold Rltb.
    decide_R. reflexivity.
  - intros H. injection H as H _. lra.
Qed.

(** ** np.max with a number in the axis position *)

Lemma py_int_fraction x : 0 <= x < 1 -> py_int x = 0%Z.
Proof.
  intros [H0 H1]. unfold py_int. destruct (Rle_dec 0 x); [|lra].
  symmetry. apply Int_part_spec. simpl. lra.
Qed.

Lemma as_axis_floor era :
  as_axis era (PyFloat 0.01745) =
  match era with Legacy => Ok 0%Z | Modern => Raise BadAxis end.
Proof.
  destruct era; simpl; [|reflexivity].
  rewrite py_int_fraction; [reflexivity|lra].
Qed.

(** [np.max(a, 0)] of a Series is its largest element, one number. *)
Lemma np_max_axis0 era x s :
  np_max era (Ser (x :: s)) (PyInt 0) = Ok (Num (list_max x s)).
Proof. reflexivity. Qed.

(** [np.max(a, 0.01745)]: the float is read as the axis. *)
Lemma np_max_floor era x s :
  np_max era (Ser (x :: s)) (PyFloat 0.01745) =
  match era with
  | Legacy => Ok (Num (list_max x s))
  | Modern => Raise BadAxis
  end.
Proof.
  unfold np_max. rewrite as_axis_floor. destruct era; reflexivity.
Qed.

Lemma radians_90 : radians 90 = PI / 2.
Proof. unfold radians; lra. Qed.

Lemma Rmax_1_0 : Rmax 1 0 = 1.
Proof. unfold Rmax; decide_R; lra. Qed.

Lemma Rmax_0_0 : Rmax 0 0 = 0.
Proof. unfold Rmax; decide_R; lra. Qed.

Lemma Rmax_0_1 : Rmax 0 1 = 1.
Proof. unfold Rmax; decide_R; lra. Qed.

(** ** haydavies1980 *)

(** C1 at a concrete call: a vertical surface (tilt 90) facing the sun's
    azimuth, the sun at zenith 0 and at zenith 90.  The code divides the
    largest COSTT of the Series by the largest cos(zenith) of the Series
    and returns 75 at both positions (or raises, where numpy refuses the
    float axis); the formula of the claim gives 25 at the first position. *)
Theorem haydavies1980_reduces_whole_series era :
  haydavies1980 era (Num 90) (Num 180) (Ser [100; 100]) (Ser [700; 700])
                (Num 1400) (Ser [0; 90]) (Num 180)
  = match era with
    | Legacy => Ok (Ser [75; 75])
    | Modern => Raise BadAxis
    end
  /\ Spec.haydavies 90 180 100 700 1400 0 180 = 25.
Proof.
  split.
  - unfold haydavies1980.
    cbn [cosd sind vmap vmap2 vadd vsub vmul vdiv map map2].
    rewrite np_max_axis0, np_max_floor. destruct era; [|reflexivity].
    cbn [rbind vmap vmap2 vadd vsub vmul vdiv map map2 list_max cosd].
    replace (180 - 180) with 0 by lra.
    rewrite !radians_0, !radians_90, !cos_0, !sin_0, !cos_PI2, !sin_PI2.
    replace (0 * 1 + 1 * 0 * 1) with 0 by lra.
    replace (0 * 0 + 1 * 1 * 1) with 1 by lra.
    rewrite Rmax_0_1, Rmax_1_0.
    do 3 f_equal; [|f_equal]; lra.
  - unfold Spec.haydavies, Spec.RB, Spec.COSTT.
    replace (180 - 180) with 0 by lra.
    rewrite !radians_0, !radians_90, !cos_0, !sin_0, !cos_PI2, !sin_PI2.
    replace (0 * 1 + 1 * 0 * 1) with 0 by lra.
    rewrite Rmax_0_0.
    replace (Rmax 1 0.01745) with 1 by (unfold Rmax; decide_R; lra).
    lra.
Qed.

(** ** reindl1990 *)

(** Running the statements of a call on concrete objects. *)
Ltac run_heap :=
  cbn [bind load lift store ret setitem_at setitem_where update nth_error
       fst snd assign_from elt Nat.add
       cosd sind vmap vmap2 vadd vsub vmul vdiv vpow map map2].

(** C6 at a concrete call: a horizontal surface (tilt 0), the sun at
    zenith 0 and at zenith 90.  The code computes RB from the maxima over
    the Series and returns 100 at both positions, leaving GHI as passed
    (or raises before touching GHI, where numpy refuses the float axis);
    the formula of the claim gives 50 at the second position. *)
Theorem reindl1990_reduces_whole_series era :
  call_reindl1990 era (Num 0) (Num 180) (Ser [100; 100]) (Ser [700; 700])
                  (Ser [800; 50]) (Num 1400) (Ser [0; 90]) (Num 180)
  = (match era with
     | Legacy => Ok (Ser [100; 100])
     | Modern => Raise BadAxis
     end,
     [Num 0; Num 180; Ser [100; 100]; Ser [700; 700]; Ser [800; 50];
      Num 1400; Ser [0; 90]; Num 180])
  /\ Spec.reindl 0 180 100 700 50 1400 90 180 = 50.
Proof.
  split.
  - unfold call_reindl1990, reindl1990. run_heap.
    rewrite np_max_axis0. run_heap. rewrite np_max_floor.
    destruct era; [|reflexivity]. run_heap.
    unfold Rltb.
    replace (180 - 180) with 0 by lra.
    replace (0 * 0.5) with 0 by lra.
    rewrite !radians_0, !radians_90, !cos_0, !sin_0, !cos_PI2, ?sin_PI2.
    decide_R. cbn [list_max].
    replace (1 * 1 + 0 * 0 * 1) with 1 by lra.
    replace (1 * 0 + 0 * 1 * 1) with 0 by lra.
    replace (0 ^ 3) with 0 by (simpl; lra). rewrite !Rmult_0_r.
    rewrite !Rmax_1_0.
    unfold ret. do 4 f_equal; [|f_equal]; lra.
  - unfold Spec.reindl, Spec.RB, Spec.COSTT.
    replace (180 - 180) with 0 by lra.
    replace (0 / 2) with 0 by lra.
    rewrite !radians_0, !radians_90, !cos_0, !sin_0, !cos_PI2, ?sin_PI2.
    replace (1 * 0 + 0 * 1 * 1) with 0 by lra.
    replace (0 ^ 3) with 0 by (simpl; lra). rewrite !Rmult_0_r.
    rewrite Rmax_0_0. lra.
Qed.

(** ** The coefficient tables and GetPerezCoefficients *)

Lemma is_8x6_rows rows :
  Spec.is_8x6 rows = true ->
  length rows = 8%nat /\ Forall (fun r => length r = 6%nat) rows.
Proof.
  unfold Spec.is_8x6. rewrite andb_true_iff, Nat.eqb_eq, forallb_forall.
  intros [H1 H2]. split; auto. apply Forall_forall. intros r Hr.
  apply Nat.eqb_eq, H2, Hr.
Qed.

(** Every key of [coeffdict] is one of the eleven names, and conversely. *)
Lemma dict_get_names m :
  In m Spec.model_names <-> exists rows, dict_get coeffdict m = Ok rows.
Proof.
  split.
  - intros H. simpl in H.
    repeat (destruct H as [<-|H]; [eexists; reflexivity|]). contradiction.
  - intros [rows H]. revert H. unfold coeffdict, dict_get.
    repeat match goal with
           | |- context [String.eqb m ?k] =>
               destruct (String.eqb_spec m k) as [->|_]; [simpl; tauto|]
           end.
    discriminate.
Qed.

Lemma dict_get_unknown m :
  ~ In m Spec.model_names -> dict_get coeffdict m = Raise KeyError.
Proof.
  intros H. destruct (dict_get coeffdict m) as [rows|e] eqn:Hd.
  - exfalso. apply H, dict_get_names. eauto.
  - revert Hd. unfold coeffdict, dict_get.
    repeat match goal with
           | |- context [String.eqb m ?k] =>
               destruct (String.eqb_spec m k); [discriminate|]
           end.
    congruence.
Qed.

(** On an 8 x 6 table the two results are the column blocks 0-2 and 3-5. *)
Lemma GetPerezCoefficients_8x6 era m rows :
  dict_get coeffdict m = Ok rows -> Spec.is_8x6 rows = true ->
  GetPerezCoefficients era m
  = Ok (Mat (map (slice 0 3) rows), Mat (map (slice 3 6) rows)).
Proof.
  unfold GetPerezCoefficients, coeffdict, dict_get.
  repeat match goal with
         | |- context [String.eqb m ?k] =>
             destruct (String.eqb_spec m k) as [->|_];
             [intros [= <-]; first [reflexivity | discriminate] |]
         end.
  discriminate.
Qed.

(** Ten of the eleven tables are 8 x 6. *)
Lemma tables_8x6 m rows :
  dict_get coeffdict m = Ok rows -> m <> "allsitescomposite1988"%string ->
  Spec.is_8x6 rows = true.
Proof.
  unfold coeffdict, dict_get.
  repeat match goal with
         | |- context [String.eqb m ?k] =>
             destruct (String.eqb_spec m k) as [->|_];
             [intros [= <-] Hne; first [reflexivity | congruence] |]
         end.
  discriminate.
Qed.

Lemma GetPerezCoefficients_unknown era m :
  ~ In m Spec.model_names -> GetPerezCoefficients era m = Raise KeyError.
Proof.
  intros H. unfold GetPerezCoefficients. now rewrite dict_get_unknown.
Qed.

(** C2 at the table that breaks it: the first row of
    ['allsitescomposite1988'] is written [-0.071,0,] and has seven
    entries, so the table is not 8 x 6; [np.array] makes a one-dimensional
    array of the eight row lists of it, whose "transpose" slices [0:3] and
    [3:7] are rows 0-2 and rows 3-6 of the table (or, where numpy refuses
    ragged input, GetPerezCoefficients raises). *)
Theorem allsitescomposite1988_first_row_has_seven_entries era :
  map (@length R) Table.allsitescomposite1988
  = [7; 6; 6; 6; 6; 6; 6; 6]%nat
  /\ Spec.is_8x6 Table.allsitescomposite1988 = false
  /\ dict_get coeffdict "allsitescomposite1988" = Ok Table.allsitescomposite1988
  /\ GetPerezCoefficients era "allsitescomposite1988"
     = match era with
       | Legacy => Ok (ObjArr (slice 0 3 Table.allsitescomposite1988),
                       ObjArr (slice 3 7 Table.allsitescomposite1988))
       | Modern => Raise ValueError
       end.
Proof. repeat split; destruct era; reflexivity. Qed.

Lemma GetPerezCoefficients_1988 era :
  GetPerezCoefficients era "allsitescomposite1988"
  = match era with
    | Legacy => Ok (ObjArr (slice 0 3 Table.allsitescomposite1988),
                    ObjArr (slice 3 7 Table.allsitescomposite1988))
    | Modern => Raise ValueError
    end.
Proof. destruct era; reflexivity. Qed.

(** ** Bins and cells *)

Lemma take_cell_cells rows c ebin :
  Forall (bin_in_range (length rows)) ebin ->
  Forall (fun row => (c < length row)%nat) rows ->
  take_cell rows c ebin = Ok (cells rows c ebin).
Proof.
  intros Hb Hc. induction Hb as [|o ebin Ho Hb IH]; [reflexivity|].
  simpl. destruct o as [r|].
  - simpl in Ho. destruct (Z.ltb_spec r 0); [lia|].
    destruct (nth_error rows (Z.to_nat r)) as [row|] eqn:Hrow.
    + assert (Hin : In row rows) by (eapply nth_error_In; eauto).
      rewrite Forall_forall in Hc. specialize (Hc row Hin).
      destruct (nth_error row c) as [x|] eqn:Hx.
      * rewrite IH. simpl. do 3 f_equal.
        rewrite (nth_error_nth _ _ _ Hrow).
        now rewrite (nth_error_nth _ _ _ Hx).
      * apply nth_error_None in Hx. lia.
    + apply nth_error_None in Hrow. lia.
  - rewrite IH. reflexivity.
Qed.

Lemma bin_set_Forall (P : Z -> Prop) ebin mask k :
  Forall P ebin -> P k -> Forall P (bin_set ebin mask k).
Proof.
  intros H Hk. revert mask.
  induction H as [|x ebin Hx H IH]; intros [|b mask];
    simpl; try constructor; auto.
  - destruct b; auto.
  - apply IH.
Qed.

Lemma repeat_Forall {A} (P : A -> Prop) x n : P x -> Forall P (repeat x n).
Proof. intros H; induction n; simpl; constructor; auto. Qed.

Lemma filtered_bins_range ebin :
  Forall (fun k => (0 <= k <= 8)%Z) ebin ->
  Forall (bin_in_range 8)
    (map2 (fun k (b : bool) => if b then Some k else None)
       (map (fun k => (k - 1)%Z) ebin) (map (fun k => (0 <? k)%Z) ebin)).
Proof.
  induction 1 as [|k ebin Hk H IH]; simpl; constructor; auto.
  destruct (Z.ltb_spec 0 k); simpl; lia.
Qed.

(** The bins that reach the table lookup index its eight rows. *)
Lemma ebin_range n e :
  Forall (bin_in_range 8)
    (map2 (fun k (b : bool) => if b then Some k else None)
       (map (fun k => (k - 1)%Z) (perez_ebin n e))
       (map (fun k => (0 <? k)%Z) (perez_ebin n e))).
Proof.
  apply filtered_bins_range. unfold perez_ebin.
  repeat (apply bin_set_Forall; [|lia]).
  apply repeat_Forall. lia.
Qed.

Lemma coeff_cells rows lo ebin c :
  Spec.is_8x6 rows = true -> Forall (bin_in_range 8) ebin ->
  (lo <= 3)%nat -> (c < 3)%nat ->
  take_cell (map (slice lo (lo + 3)) rows) c ebin
  = Ok (cells (map (slice lo (lo + 3)) rows) c ebin).
Proof.
  intros H86 Hb Hlo Hc. destruct (is_8x6_rows rows H86) as [Hlen Hrows].
  apply take_cell_cells.
  - rewrite length_map, Hlen. exact Hb.
  - apply Forall_map. eapply Forall_impl; [|exact Hrows].
    intros row Hrow. cbv beta in Hrow. unfold slice.
    rewrite length_firstn, length_skipn. lia.
Qed.

(** ** Floors *)

Lemma floor_nonneg (X : fseries) :
  Forall nonneg (fmap (fun x => if Rleb x 0 then 0 else x) X).
Proof.
  unfold fmap. apply Forall_map, Forall_forall. intros [v|] _; simpl; auto.
  unfold Rleb. destruct (Rle_dec v 0); lra.
Qed.

(** ** The stages of perez on Series *)

Lemma vmap2_series_l f s b : exists s', vmap2 f (Ser s) b = Ser s'.
Proof. destruct b; eexists; reflexivity. Qed.

Lemma COSTT_series tilt az zen saz :
  exists s,
    (cosd tilt * cosd (Ser zen)
     + sind tilt * sind (Ser zen) * cosd (saz - az))%V = Ser s.
Proof. destruct tilt; apply vmap2_series_l. Qed.

Lemma delt_series dhi am hx : exists d, (Ser dhi * am / Ser hx)%V = Ser d.
Proof. destruct am; eexists; reflexivity. Qed.

Lemma perez_e_series kappa dhi dni z zen :
  exists e, perez_e kappa (Ser dhi) (Ser dni) (Ser z) (Ser zen) = Ok e.
Proof. eexists. reflexivity. Qed.

Lemma perez_F_ok rows lo ebin ebinfilter delt z :
  Spec.is_8x6 rows = true -> Forall (bin_in_range 8) ebin -> (lo <= 3)%nat ->
  perez_F (Mat (map (slice lo (lo + 3)) rows)) ebin ebinfilter
          (Ser delt) (Ser z)
  = Ok (fmap (fun x => if Rltb x 0 then 0 else x)
          (fmap2 Rplus
             (fmap2 Rplus
                (cells (map (slice lo (lo + 3)) rows) 0 ebin)
                (fmap2 Rmult (cells (map (slice lo (lo + 3)) rows) 1 ebin)
                   (select delt ebinfilter)))
             (fmap2 Rmult (cells (map (slice lo (lo + 3)) rows) 2 ebin)
                (select z ebinfilter)))).
Proof.
  intros H86 Hb Hlo. unfold perez_F. cbn [fancy].
  rewrite !(coeff_cells rows lo ebin _ H86 Hb Hlo) by lia.
  reflexivity.
Qed.

Lemma perez_F_ObjArr rows ebin ebinfilter delt z :
  perez_F (ObjArr rows) ebin ebinfilter delt z = Raise IndexError.
Proof. reflexivity. Qed.

Lemma perez_SkyDiffuse_series dhi A B F1 F2 ebinfilter tilt :
  perez_SkyDiffuse (Ser dhi) (Ser A) (Ser B) F1 F2 ebinfilter tilt
  = Ok (fmap (fun x => if Rleb x 0 then 0 else x)
          (fmap2 Rmult (select dhi ebinfilter)
             (fmap2 Rplus
                (fmap2 Rplus
                   (fvmap2 Rmult
                      (fmap (fun x => 0.5 * x)
                         (fmap (fun x => 1 - x) (fgetitem F1 ebinfilter)))
                      (Num 1 + cosd tilt)%V)
                   (fmap2 Rdiv
                      (fmap2 Rmult (fgetitem F1 ebinfilter)
                         (select A ebinfilter))
                      (select B ebinfilter)))
                (fvmap2 Rmult (fgetitem F2 ebinfilter) (sind tilt))))).
Proof. reflexivity. Qed.

(** ** Elements of filtered Series *)

Lemma nth_error_select s m i :
  nth_error (select s m) i =
  match nth_error s i, nth_error m i with
  | Some x, Some b => Some (if b then Some x else None)
  | _, _ => None
  end.
Proof. apply nth_error_map2. Qed.

Lemma nth_error_fmap f X i :
  nth_error (fmap f X) i = option_map (option_map f) (nth_error X i).
Proof. apply nth_error_map. Qed.

Lemma nth_error_fmap2 f X Y i :
  nth_error (fmap2 f X Y) i =
  match nth_error X i, nth_error Y i with
  | Some x, Some y => Some (lift2 f x y)
  | _, _ => None
  end.
Proof. apply nth_error_map2. Qed.

Lemma nth_error_fvmap2 f X v i :
  nth_error (fvmap2 f X v) i =
  match nth_error X i, elt v i with
  | Some x, Some y => Some (option_map (fun u => f u y) x)
  | _, _ => None
  end.
Proof.
  destruct v as [y|s]; simpl.
  - rewrite nth_error_fmap. destruct (nth_error X i); reflexivity.
  - apply nth_error_map2.
Qed.

Lemma nth_error_fgetitem X m i :
  nth_error (fgetitem X m) i =
  match nth_error X i, nth_error m i with
  | Some x, Some b => Some (if b then x else None)
  | _, _ => None
  end.
Proof. apply nth_error_map2. Qed.

Lemma nth_error_cells rows c ebin i :
  nth_error (cells rows c ebin) i =
  option_map (option_map (fun r => nth c (nth (Z.to_nat r) rows []) 0))
    (nth_error ebin i).
Proof. apply nth_error_map. Qed.

Lemma nth_error_bin_set ebin mask k i :
  nth_error (bin_set ebin mask k) i =
  match nth_error ebin i, nth_error mask i with
  | Some x, Some b => Some (if b then k else x)
  | _, _ => None
  end.
Proof. apply nth_error_map2. Qed.

Lemma nth_error_fcmp t e c i :
  nth_error (fcmp t e c) i =
  option_map (fun x => match x with Some u => t u c | None => false end)
    (nth_error e i).
Proof. apply nth_error_map. Qed.

(** The bin of one label. *)
Lemma perez_ebin_elt n e i eo :
  (i < n)%nat -> nth_error e i = Some eo ->
  nth_error (perez_ebin n e) i
  = Some (match eo with Some ev => Spec.bin_of ev | None => 0%Z end).
Proof.
  intros Hi He. unfold perez_ebin.
  rewrite !nth_error_bin_set, !nth_error_map2, !nth_error_fcmp, He.
  rewrite (nth_error_repeat 0%Z Hi). cbn [option_map].
  destruct eo as [ev|]; [|reflexivity].
  unfold Spec.bin_of, Rgeb, Rleb, Rltb. f_equal.
  repeat match goal with
         | |- context [Rlt_dec ev ?c] =>
             destruct (Rlt_dec ev c); try (exfalso; lra)
         | |- context [Rle_dec ?c ev] =>
             destruct (Rle_dec c ev); try (exfalso; lra)
         end; reflexivity.
Qed.

(** The clearness of one label. *)
Lemma perez_e_elt dhi dni z zen e i d dn zr :
  perez_e 1.041 (Ser dhi) (Ser dni) (Ser z) (Ser zen) = Ok e ->
  (i < length zen)%nat ->
  nth_error dhi i = Some d -> nth_error dni i = Some dn ->
  nth_error z i = Some zr ->
  nth_error e i
  = Some (if Rgtb d 0 then Some (Spec.clearness d dn zr) else None).
Proof.
  intros [= <-] Hi Hd Hdn Hz.
  assert (Hm : nth_error (map (fun x => Rgtb x 0) dhi) i = Some (Rgtb d 0))
    by (rewrite nth_error_map, Hd; reflexivity).
  assert (Hk : nth_error
                 (fmap (fun x => 1 + x)
                    (fmap (fun x => 1.041 * x)
                       (fmap (fun x => x ^ 3)
                          (select z (map (fun x => Rgtb x 0) dhi))))) i
               = Some (if Rgtb d 0 then Some (1 + 1.041 * zr ^ 3) else None)).
  { rewrite !nth_error_fmap, nth_error_select, Hz, Hm.
    destruct (Rgtb d 0); reflexivity. }
  rewrite !nth_error_fmap2, !nth_error_fmap, !nth_error_select.
  rewrite Hd, Hdn, Hz, Hm, nth_error_map, nth_error_seq.
  destruct (Nat.ltb_spec i (length zen)) as [_|]; [|lia].
  cbn [option_map Nat.add]. rewrite (nth_error_nth _ _ _ Hk).
  destruct (Rgtb d 0); reflexivity.
Qed.

Lemma slice_nil {A} lo hi : @slice A lo hi [] = [].
Proof. unfold slice. now rewrite skipn_nil, firstn_nil. Qed.

Lemma coeff_cell rows lo r c :
  (c < 3)%nat ->
  nth c (nth r (map (slice lo (lo + 3)) rows) []) 0
  = nth (lo + c) (nth r rows []) 0.
Proof.
  intros Hc. rewrite <- (slice_nil lo (lo + 3)) at 1. rewrite map_nth.
  unfold slice. rewrite nth_firstn, nth_skipn.
  destruct (Nat.ltb_spec c (lo + 3 - lo)); [reflexivity|lia].
Qed.

(** [F1] and [F2] at one label. *)
Lemma perez_F_elt rows lo ebin ef delt z F i r dl zr :
  Spec.is_8x6 rows = true -> Forall (bin_in_range 8) ebin -> (lo <= 3)%nat ->
  perez_F (Mat (map (slice lo (lo + 3)) rows)) ebin ef (Ser delt) (Ser z)
  = Ok F ->
  nth_error ebin i = Some (Some r) -> nth_error ef i = Some true ->
  nth_error delt i = Some dl -> nth_error z i = Some zr ->
  nth_error F i
  = Some (Some (Spec.perez_F (nth (Z.to_nat r) rows []) lo dl zr)).
Proof.
  intros H86 Hb Hlo HF He Hf Hd Hz.
  rewrite (perez_F_ok rows lo ebin ef delt z H86 Hb Hlo) in HF.
  injection HF as <-.
  rewrite nth_error_fmap, !nth_error_fmap2, !nth_error_cells, !nth_error_select.
  rewrite He, Hf, Hd, Hz. cbn [option_map lift2].
  rewrite !coeff_cell by lia. rewrite Rltb_Rmax.
  unfold Spec.perez_F. now rewrite Nat.add_0_r.
Qed.

Lemma perez_F_absent rows lo ebin ef delt z F i :
  Spec.is_8x6 rows = true -> Forall (bin_in_range 8) ebin -> (lo <= 3)%nat ->
  perez_F (Mat (map (slice lo (lo + 3)) rows)) ebin ef (Ser delt) (Ser z)
  = Ok F ->
  nth_error ebin i = Some None ->
  (i < length delt)%nat -> (i < length z)%nat -> (i < length ef)%nat ->
  nth_error F i = Some None.
Proof.
  intros H86 Hb Hlo HF He Hd Hz Hf.
  rewrite (perez_F_ok rows lo ebin ef delt z H86 Hb Hlo) in HF.
  injection HF as <-.
  rewrite nth_error_fmap, !nth_error_fmap2, !nth_error_cells, !nth_error_select.
  rewrite He.
  destruct (nth_error delt i) eqn:E1; [|apply nth_error_None in E1; lia].
  destruct (nth_error z i) eqn:E2; [|apply nth_error_None in E2; lia].
  destruct (nth_error ef i) eqn:E3; [|apply nth_error_None in E3; lia].
  reflexivity.
Qed.

Ltac run_perez :=
  cbn [bind load lift store ret setitem_at setitem_where update nth_error
       fst snd series_len rbind].

(** ** perez *)

Lemma bind_Ok_inv {A B} (m : M A) (k : A -> M B) h b h' :
  bind m k h = (Ok b, h') ->
  exists a h1, m h = (Ok a, h1) /\ k a h1 = (Ok b, h').
Proof.
  unfold bind. destruct (m h) as [[a|e] h1]; intros H; [eauto | discriminate].
Qed.

Lemma floor_Rmax x : (if Rleb x 0 then 0 else x) = Rmax x 0.
Proof. unfold Rleb, Rmax. destruct (Rle_dec x 0); reflexivity. Qed.

Lemma perez_SkyDiffuse_floor dhi A B F1 F2 ef tilt out :
  perez_SkyDiffuse dhi A B F1 F2 ef tilt = Ok out ->
  exists c, out = fmap (fun x => if Rleb x 0 then 0 else x) c.
Proof.
  unfold perez_SkyDiffuse.
  destruct (getitem dhi (BSer ef)); [|discriminate]. cbn [rbind].
  destruct (getitem A (BSer ef)); [|discriminate]. cbn [rbind].
  destruct (getitem B (BSer ef)); [|discriminate]. cbn [rbind].
  intros [= <-]. eauto.
Qed.

(** Whatever the objects of the call (scalars or Series, shared or not)
    and whatever the model: a series that [perez] returns went through
    the floor of its last statement. *)
Lemma perez_returned_floor era SurfTilt SurfAz DHI DNI HExtra SunZen SunAz AM
    modelt h out h' :
  perez era SurfTilt SurfAz DHI DNI HExtra SunZen SunAz AM modelt h
  = (Ok out, h') ->
  exists c, out = fmap (fun x => if Rleb x 0 then 0 else x) c.
Proof.
  unfold perez. intros H. cbv zeta in H.
  repeat match type of H with
         | bind _ _ _ = _ =>
             apply bind_Ok_inv in H;
             let a := fresh "a" in
             let h1 := fresh "h" in
             let E := fresh "E" in
             destruct H as (a & h1 & E & H); cbv beta zeta in H
         | (let (_, _) := ?c in _) _ = _ => destruct c
         end.
  unfold ret in H. injection H as <- <-.
  match goal with
  | E : lift (perez_SkyDiffuse _ _ _ _ _ _ _) _ = _ |- _ =>
      unfold lift in E; injection E as E _;
      apply perez_SkyDiffuse_floor in E; exact E
  end.
Qed.

Lemma bin_of_range e : (1 <= Spec.bin_of e <= 8)%Z.
Proof.
  unfold Spec.bin_of.
  repeat match goal with
         | |- context [Rltb e ?c] => destruct (Rltb e c)
         end; lia.
Qed.

(** The stages of a call on Series, with the values they compute. *)
Lemma perez_stages era tilt az dhi dni hx zen saz am modelt rows :
  dict_get coeffdict (modelt_or_default modelt) = Ok rows ->
  Spec.is_8x6 rows = true ->
  let z := map (fun x => x / 180) (map (fun x => x * PI) zen) in
  let hx' := assign_from Reqb 0 hx (Num 0) (Num 0.00000001) in
  exists e delt F1 F2 costt,
    let ebinfilter := map (fun k => (0 <? k)%Z) (perez_ebin (length dhi) e) in
    let ebin := map2 (fun k (b : bool) => if b then Some k else None)
                  (map (fun k => (k - 1)%Z) (perez_ebin (length dhi) e))
                  ebinfilter in
    let A := assign_from Rltb 0 costt (Num 0) (Num 0) in
    let B := assign_from Rltb 0 (map (fun x => cos (radians x)) zen)
               (cosd (Num 85)) (cosd (Num 85)) in
    perez_e 1.041 (Ser dhi) (Ser dni) (Ser z) (Ser zen) = Ok e /\
    (Ser dhi * am / Ser hx')%V = Ser delt /\
    perez_F (Mat (map (slice 0 3) rows)) ebin ebinfilter (Ser delt) (Ser z)
    = Ok F1 /\
    perez_F (Mat (map (slice 3 6) rows)) ebin ebinfilter (Ser delt) (Ser z)
    = Ok F2 /\
    (cosd tilt * cosd (Ser zen)
     + sind tilt * sind (Ser zen) * cosd (saz - az))%V = Ser costt /\
    call_perez era tilt az (Ser dhi) (Ser dni) (Ser hx) (Ser zen) saz am modelt
    = (Ok (fmap (fun x => if Rleb x 0 then 0 else x)
             (fmap2 Rmult (select dhi ebinfilter)
                (fmap2 Rplus
                   (fmap2 Rplus
                      (fvmap2 Rmult
                         (fmap (fun x => 0.5 * x)
                            (fmap (fun x => 1 - x) (fgetitem F1 ebinfilter)))
                         (Num 1 + cosd tilt)%V)
                      (fmap2 Rdiv
                         (fmap2 Rmult (fgetitem F1 ebinfilter)
                            (select A ebinfilter))
                         (select B ebinfilter)))
                   (fvmap2 Rmult (fgetitem F2 ebinfilter) (sind tilt))))),
       [tilt; az; Ser dhi; Ser dni; Ser hx'; Ser zen; saz; am]).
Proof.
  intros Hd H86 z hx'.
  pose proof (GetPerezCoefficients_8x6 era _ rows Hd H86) as HG.
  assert (Hz : (Ser zen * Num PI / Num 180)%V = Ser z) by reflexivity.
  destruct (perez_e_series 1.041 dhi dni z zen) as [e He].
  destruct (delt_series dhi am hx') as [delt Hdelt].
  destruct (COSTT_series tilt az zen saz) as [costt HA].
  pose proof (ebin_range (length dhi) e) as Hrange.
  eexists e, delt, _, _, costt. cbv zeta.
  split; [exact He|]. split; [exact Hdelt|].
  split; [apply (perez_F_ok rows 0 _ _ delt z H86 Hrange); lia|].
  split; [apply (perez_F_ok rows 3 _ _ delt z H86 Hrange); lia|].
  split; [exact HA|].
  unfold call_perez, perez. run_perez.
  rewrite Hz, He. run_perez. fold hx'. rewrite Hdelt, HG. run_perez.
  rewrite (perez_F_ok rows 0 _ _ delt z H86 Hrange) by lia. run_perez.
  rewrite (perez_F_ok rows 3 _ _ delt z H86 Hrange) by lia. run_perez.
  rewrite HA. run_perez. cbn [cosd vmap]. run_perez.
  rewrite perez_SkyDiffuse_series. run_perez.
  reflexivity.
Qed.

(** An exception of the coefficient lookup is the exception of the call. *)
Lemma perez_raises era tilt az dhi dni hx zen saz am modelt x :
  GetPerezCoefficients era (modelt_or_default modelt) = Raise x ->
  fst (call_perez era tilt az (Ser dhi) (Ser dni) (Ser hx) (Ser zen) saz am
         modelt) = Raise x.
Proof.
  intros HG.
  assert (Hz : (Ser zen * Num PI / Num 180)%V
               = Ser (map (fun x => x / 180) (map (fun x => x * PI) zen)))
    by reflexivity.
  destruct (perez_e_series 1.041 dhi dni
              (map (fun x => x / 180) (map (fun x => x * PI) zen)) zen)
    as [e He].
  unfold call_perez, perez. run_perez.
  rewrite Hz, He. run_perez. rewrite HG. reflexivity.
Qed.

(** A one-dimensional coefficient array fails at [F1c[ebin,0]]. *)
Lemma perez_ObjArr era tilt az dhi dni hx zen saz am modelt r1 F2c :
  GetPerezCoefficients era (modelt_or_default modelt) = Ok (ObjArr r1, F2c) ->
  fst (call_perez era tilt az (Ser dhi) (Ser dni) (Ser hx) (Ser zen) saz am
         modelt) = Raise IndexError.
Proof.
  intros HG.
  assert (Hz : (Ser zen * Num PI / Num 180)%V
               = Ser (map (fun x => x / 180) (map (fun x => x * PI) zen)))
    by reflexivity.
  destruct (perez_e_series 1.041 dhi dni
              (map (fun x => x / 180) (map (fun x => x * PI) zen)) zen)
    as [e He].
  unfold call_perez, perez. run_perez.
  rewrite Hz, He. run_perez. rewrite HG. run_perez.
  rewrite perez_F_ObjArr. reflexivity.
Qed.

(** The value [perez] returns at one label of aligned Series. *)
Lemma perez_element era tilt az dhi dni hx zen saz am modelt rows
    i t a d dn h zn s m :
  dict_get coeffdict (modelt_or_default modelt) = Ok rows ->
  Spec.is_8x6 rows = true ->
  length dni = length dhi -> length hx = length dhi ->
  length zen = length dhi ->
  shape (length dhi) tilt -> shape (length dhi) az ->
  shape (length dhi) saz -> shape (length dhi) am ->
  elt tilt i = Some t -> elt az i = Some a ->
  nth_error dhi i = Some d -> nth_error dni i = Some dn ->
  nth_error hx i = Some h -> nth_error zen i = Some zn ->
  elt saz i = Some s -> elt am i = Some m ->
  exists out hp,
    call_perez era tilt az (Ser dhi) (Ser dni) (Ser hx) (Ser zen) saz am modelt
    = (Ok out, hp) /\
    nth_error out i
    = Some (if Rgtb d 0
            then Some (Spec.perez rows t a d dn h zn s m)
            else None).
Proof.
  intros Hdict H86 _ _ Hlz _ _ _ _ Ht Ha Hd Hdn Hh Hzn Hs Hm.
  destruct (perez_stages era tilt az dhi dni hx zen saz am modelt rows
              Hdict H86)
    as (e & delt & F1 & F2 & costt & He & Hdelt & HF1 & HF2 & HA & Hcall).
  cbv zeta in *.
  set (z := map (fun x => x / 180) (map (fun x => x * PI) zen)) in *.
  set (hx' := assign_from Reqb 0 hx (Num 0) (Num 0.00000001)) in *.
  set (ebin0 := perez_ebin (length dhi) e) in *.
  set (ef := map (fun k => (0 <? k)%Z) ebin0) in *.
  set (ebin := map2 (fun k (b : bool) => if b then Some k else None)
                 (map (fun k => (k - 1)%Z) ebin0) ef) in *.
  assert (Hi : (i < length dhi)%nat)
    by (apply nth_error_Some; rewrite Hd; discriminate).
  pose proof (ebin_range (length dhi) e) as Hrange. fold ebin0 ef ebin in Hrange.
  (* the elements of the intermediate Series *)
  assert (Hz : nth_error z i = Some (zn * PI / 180))
    by (unfold z; rewrite !nth_error_map, Hzn; reflexivity).
  assert (Hei : nth_error e i
                = Some (if Rgtb d 0
                        then Some (Spec.clearness d dn (zn * PI / 180))
                        else None))
    by (apply (perez_e_elt dhi dni z zen e i d dn _ He); auto; lia).
  assert (Hb0 : nth_error ebin0 i
                = Some (if Rgtb d 0
                        then Spec.bin_of (Spec.clearness d dn (zn * PI / 180))
                        else 0%Z)).
  { unfold ebin0. rewrite (perez_ebin_elt _ e i _ Hi Hei).
    destruct (Rgtb d 0); reflexivity. }
  assert (Hef : nth_error ef i = Some (Rgtb d 0)).
  { unfold ef. rewrite nth_error_map, Hb0. cbn [option_map]. f_equal.
    destruct (Rgtb d 0); [|reflexivity].
    pose proof (bin_of_range (Spec.clearness d dn (zn * PI / 180))).
    apply Z.ltb_lt. lia. }
  assert (Hbin : nth_error ebin i
                 = Some (if Rgtb d 0
                         then Some (Spec.bin_of
                                      (Spec.clearness d dn (zn * PI / 180)) - 1)%Z
                         else None)).
  { unfold ebin. rewrite nth_error_map2, nth_error_map, Hb0, Hef.
    cbn [option_map]. destruct (Rgtb d 0); reflexivity. }
  assert (Hhx : nth_error hx' i
                = Some (if Reqb h 0 then 0.00000001 else h))
    by (unfold hx'; rewrite nth_error_assign_from, Hh; reflexivity).
  assert (Hdl : nth_error delt i
                = Some (d * m / (if Reqb h 0 then 0.00000001 else h))).
  { change (elt (Ser delt) i = Some (d * m / (if Reqb h 0 then 0.00000001 else h))).
    rewrite <- Hdelt. elts. cbn [elt]. rewrite Hd, Hm, Hhx. reflexivity. }
  assert (HAi : nth_error (assign_from Rltb 0 costt (Num 0) (Num 0)) i
                = Some (Rmax (Spec.COSTT t a zn s) 0)).
  { apply clamp_elt; [|reflexivity].
    change (elt (Ser costt) i = Some (Spec.COSTT t a zn s)).
    rewrite <- HA. elts. cbn [elt]. rewrite Ht, Ha, Hs, Hzn. reflexivity. }
  assert (HBi : nth_error
                  (assign_from Rltb 0 (map (fun x => cos (radians x)) zen)
                     (cosd (Num 85)) (cosd (Num 85))) i
                = Some (Rmax (cos (radians zn)) (cos (radians 85)))).
  { apply clamp_elt; [|reflexivity]. now rewrite nth_error_map, Hzn. }
  assert (Htilt : elt (Num 1 + cosd tilt)%V i = Some (1 + cos (radians t)))
    by (elts; rewrite Ht; reflexivity).
  assert (Hsin : elt (sind tilt) i = Some (sin (radians t)))
    by (elts; rewrite Ht; reflexivity).
  eexists _, _. split; [exact Hcall|].
  rewrite nth_error_fmap, !nth_error_fmap2, !nth_error_fvmap2, !nth_error_fmap,
    !nth_error_fgetitem, !nth_error_select.
  rewrite Hd, Hef, HAi, HBi, Htilt, Hsin.
  destruct (Rgtb d 0) eqn:Hpos.
  - rewrite (perez_F_elt rows 0 ebin ef delt z F1 i _ _ _ H86 Hrange
               ltac:(lia) HF1 Hbin Hef Hdl Hz).
    rewrite (perez_F_elt rows 3 ebin ef delt z F2 i _ _ _ H86 Hrange
               ltac:(lia) HF2 Hbin Hef Hdl Hz).
    cbn [option_map lift2]. rewrite floor_Rmax. reflexivity.
  - assert (Hld : (i < length delt)%nat)
      by (apply nth_error_Some; rewrite Hdl; discriminate).
    assert (Hlz' : (i < length z)%nat)
      by (apply nth_error_Some; rewrite Hz; discriminate).
    assert (Hlf : (i < length ef)%nat)
      by (apply nth_error_Some; rewrite Hef; discriminate).
    rewrite (perez_F_absent rows 0 ebin ef delt z F1 i H86 Hrange
               ltac:(lia) HF1 Hbin Hld Hlz' Hlf).
    rewrite (perez_F_absent rows 3 ebin ef delt z F2 i H86 Hrange
               ltac:(lia) HF2 Hbin Hld Hlz' Hlf).
    reflexivity.
Qed.

(** C7: with a model whose table is 8 x 6 and aligned Series for DHI, DNI,
    HExtra and SunZen, [perez] returns; at every label with [DHI > 0] the
    returned SkyDiffuse is
    [max(DHI * (0.5 (1 - F1) (1 + cos tilt) + F1 A / B + F2 sin tilt), 0)],
    with [F1] and [F2] themselves floored at 0, and the other labels carry
    no value.  And every element of every series that [perez] returns, on
    any input, is non-negative. *)
Theorem perez_SkyDiffuse_nonnegative era tilt az dhi dni hx zen saz am
    modelt rows :
  dict_get coeffdict (modelt_or_default modelt) = Ok rows ->
  Spec.is_8x6 rows = true ->
  length dni = length dhi -> length hx = length dhi ->
  length zen = length dhi ->
  shape (length dhi) tilt -> shape (length dhi) az ->
  shape (length dhi) saz -> shape (length dhi) am ->
  (exists out h,
     call_perez era tilt az (Ser dhi) (Ser dni) (Ser hx) (Ser zen) saz am
       modelt = (Ok out, h) /\
     Forall nonneg out /\
     forall i t a d dn hxi zn s m,
       elt tilt i = Some t -> elt az i = Some a ->
       nth_error dhi i = Some d -> nth_error dni i = Some dn ->
       nth_error hx i = Some hxi -> nth_error zen i = Some zn ->
       elt saz i = Some s -> elt am i = Some m ->
       nth_error out i
       = Some (if Rgtb d 0
               then Some (Spec.perez rows t a d dn hxi zn s m)
               else None) /\
       0 <= Spec.perez rows t a d dn hxi zn s m)
  /\ (forall SurfTilt SurfAz DHI DNI HExtra SunZen SunAz AM m h0 out h,
        perez era SurfTilt SurfAz DHI DNI HExtra SunZen SunAz AM m h0
        = (Ok out, h) ->
        Forall nonneg out).
Proof.
  intros Hd H86 Hl1 Hl2 Hl3 S1 S2 S3 S4. split.
  - destruct (perez_stages era tilt az dhi dni hx zen saz am modelt rows
                Hd H86)
      as (e & delt & F1 & F2 & costt & _ & _ & _ & _ & _ & Hcall).
    cbv zeta in Hcall.
    eexists _, _. split; [exact Hcall|]. split; [apply floor_nonneg|].
    intros i t a d dn hxi zn s m Ht Ha Hdi Hdn Hh Hzn Hs Hm.
    split; [|apply Rmax_r].
    destruct (perez_element era tilt az dhi dni hx zen saz am modelt rows
                i t a d dn hxi zn s m Hd H86 Hl1 Hl2 Hl3 S1 S2 S3 S4
                Ht Ha Hdi Hdn Hh Hzn Hs Hm) as (out & hp & Hc & Hout).
    rewrite Hcall in Hc. apply (f_equal fst) in Hc. cbn [fst] in Hc.
    injection Hc as Hc. subst out. exact Hout.
  - intros ? ? ? ? ? ? ? ? ? ? out h H.
    destruct (perez_returned_floor _ _ _ _ _ _ _ _ _ _ _ _ _ H) as [c ->].
    apply floor_nonneg.
Qed.

Lemma perez_SkyDiffuse_nonnegative_witness :
  (exists out h,
     call_perez Legacy (Num 30) (Num 180) (Ser [100; 0]) (Ser [800; 0])
       (Ser [1400; 0]) (Ser [30; 95]) (Num 180) (Num 1.5) None
     = (Ok out, h) /\
     Forall nonneg out /\
     forall i t a d dn hxi zn s m,
       elt (Num 30) i = Some t -> elt (Num 180) i = Some a ->
       nth_error [100; 0] i = Some d -> nth_error [800; 0] i = Some dn ->
       nth_error [1400; 0] i = Some hxi -> nth_error [30; 95] i = Some zn ->
       elt (Num 180) i = Some s -> elt (Num 1.5) i = Some m ->
       nth_error out i
       = Some (if Rgtb d 0
               then Some (Spec.perez Table.allsitescomposite1990
                            t a d dn hxi zn s m)
               else None) /\
       0 <= Spec.perez Table.allsitescomposite1990 t a d dn hxi zn s m)
  /\ (forall SurfTilt SurfAz DHI DNI HExtra SunZen SunAz AM m h0 out h,
        perez Legacy SurfTilt SurfAz DHI DNI HExtra SunZen SunAz AM m h0
        = (Ok out, h) ->
        Forall nonneg out).
Proof.
  apply (perez_SkyDiffuse_nonnegative Legacy (Num 30) (Num 180) [100; 0]
           [800; 0] [1400; 0] [30; 95] (Num 180) (Num 1.5) None
           Table.allsitescomposite1990);
    first [reflexivity | exact I].
Defined.

(** ** The model names *)

Lemma model_names_NoDup : NoDup Spec.model_names.
Proof.
  unfold Spec.model_names.
  repeat (constructor; [simpl; intuition discriminate|]).
  constructor.
Qed.

Lemma GetPerezCoefficients_known era m :
  In m Spec.model_names -> GetPerezCoefficients era m <> Raise KeyError.
Proof.
  intros H. destruct (String.eqb_spec m "allsitescomposite1988") as [->|Hne].
  - rewrite GetPerezCoefficients_1988. destruct era; discriminate.
  - apply dict_get_names in H. destruct H as [rows Hd].
    rewrite (GetPerezCoefficients_8x6 era m rows Hd (tables_8x6 m rows Hd Hne)).
    discriminate.
Qed.

Lemma perez_known era tilt az dhi dni hx zen saz am m :
  In m Spec.model_names ->
  fst (call_perez era tilt az (Ser dhi) (Ser dni) (Ser hx) (Ser zen) saz am
         (Some m)) <> Raise KeyError.
Proof.
  intros H. destruct (String.eqb_spec m "allsitescomposite1988") as [->|Hne].
  - pose proof (GetPerezCoefficients_1988 era) as HG. destruct era.
    + rewrite (perez_ObjArr Legacy tilt az dhi dni hx zen saz am
                 (Some "allsitescomposite1988"%string) _ _ HG).
      discriminate.
    + rewrite (perez_raises Modern tilt az dhi dni hx zen saz am
                 (Some "allsitescomposite1988"%string) _ HG).
      discriminate.
  - apply dict_get_names in H. destruct H as [rows Hd].
    destruct (perez_stages era tilt az dhi dni hx zen saz am (Some m) rows Hd
                (tables_8x6 m rows Hd Hne))
      as (? & ? & ? & ? & ? & _ & _ & _ & _ & _ & Hcall).
    cbv zeta in Hcall. rewrite Hcall. discriminate.
Qed.

(** C3: the model names that [GetPerezCoefficients] and [perez] take are
    exactly the eleven of the interface, ['allsitescomposite1990'] being
    the default of [perez]; any other string (for example ["not_a_model"],
    and also the historical ["1990"]) ends both in the KeyError of the
    dict lookup, the unknown-model error.  The call of [perez] is one on
    aligned Series. *)
Theorem model_names_exactly_eleven era m tilt az dhi dni hx zen saz am :
  length dni = length dhi -> length hx = length dhi ->
  length zen = length dhi ->
  shape (length dhi) tilt -> shape (length dhi) az ->
  shape (length dhi) saz -> shape (length dhi) am ->
  length Spec.model_names = 11%nat /\ NoDup Spec.model_names
  /\ modelt_or_default None = "allsitescomposite1990"%string
  /\ In "allsitescomposite1990"%string Spec.model_names
  /\ (In m Spec.model_names <->
      GetPerezCoefficients era m <> Raise KeyError)
  /\ (In m Spec.model_names <->
      fst (call_perez era tilt az (Ser dhi) (Ser dni) (Ser hx) (Ser zen)
             saz am (Some m)) <> Raise KeyError)
  /\ GetPerezCoefficients era "not_a_model" = Raise KeyError
  /\ GetPerezCoefficients era "1990" = Raise KeyError.
Proof.
  intros _ _ _ _ _ _ _.
  split; [reflexivity|]. split; [apply model_names_NoDup|].
  split; [reflexivity|]. split; [simpl; tauto|].
  split; [|split; [|split; reflexivity]].
  - split; [apply GetPerezCoefficients_known|].
    intros Hk.
    destruct (in_dec String.string_dec m Spec.model_names) as [Hin|Hout];
      [exact Hin|].
    exfalso. apply Hk, GetPerezCoefficients_unknown, Hout.
  - split; [apply perez_known|].
    intros Hk.
    destruct (in_dec String.string_dec m Spec.model_names) as [Hin|Hout];
      [exact Hin|].
    exfalso. apply Hk, perez_raises, GetPerezCoefficients_unknown, Hout.
Qed.

Lemma model_names_exactly_eleven_witness :
  length Spec.model_names = 11%nat /\ NoDup Spec.model_names
  /\ modelt_or_default None = "allsitescomposite1990"%string
  /\ In "allsitescomposite1990"%string Spec.model_names
  /\ (In "1990"%string Spec.model_names <->
      GetPerezCoefficients Modern "1990" <> Raise KeyError)
  /\ (In "1990"%string Spec.model_names <->
      fst (call_perez Modern (Num 30) (Num 180) (Ser [100; 0]) (Ser [800; 0])
             (Ser [1400; 0]) (Ser [30; 95]) (Num 180) (Num 1.5)
             (Some "1990"%string)) <> Raise KeyError)
  /\ GetPerezCoefficients Modern "not_a_model" = Raise KeyError
  /\ GetPerezCoefficients Modern "1990" = Raise KeyError.
Proof.
  apply (model_names_exactly_eleven Modern "1990"%string (Num 30) (Num 180)
           [100; 0] [800; 0] [1400; 0] [30; 95] (Num 180) (Num 1.5));
    first [reflexivity | exact I].
Defined.

(** * Further properties: the other models, errors, frames and limits *)

(** ** isotropicsky *)

Lemma radians_180 : radians 180 = PI.
Proof. unfold radians; lra. Qed.

Lemma isotropicsky_elt SurfTilt DHI i t d :
  elt SurfTilt i = Some t -> elt DHI i = Some d ->
  elt (isotropicsky SurfTilt DHI) i = Some (d * (1 + cos (radians t)) * 0.5).
Proof.
  intros Ht Hd. unfold isotropicsky. elts. rewrite Ht, Hd. reflexivity.
Qed.

(** X1: The isotropic sky diffuse is a share of DHI between none and all of
    it, whatever the tilt: all of it on a horizontal surface, half on a
    vertical one, none on a surface that faces down. *)
Theorem isotropicsky_share_of_DHI SurfTilt DHI i t d :
  elt SurfTilt i = Some t -> elt DHI i = Some d -> 0 <= d ->
  exists sky,
    elt (isotropicsky SurfTilt DHI) i = Some sky /\
    0 <= sky <= d /\
    (t = 0 -> sky = d) /\ (t = 90 -> sky = d / 2) /\ (t = 180 -> sky = 0).
Proof.
  intros Ht Hd Hd0. eexists. split; [apply (isotropicsky_elt _ _ i t d Ht Hd)|].
  pose proof (COS_bound (radians t)) as [Hl Hu].
  split; [split; nra|].
  split; [|split]; intros ->.
  - rewrite radians_0, cos_0. lra.
  - rewrite radians_90, cos_PI2. lra.
  - rewrite radians_180, cos_PI. lra.
Qed.

Lemma isotropicsky_share_of_DHI_witness :
  exists sky,
    elt (isotropicsky (Num 30) (Ser [100; 0])) 0 = Some sky /\
    0 <= sky <= 100 /\
    (30 = 0 -> sky = 100) /\ (30 = 90 -> sky = 100 / 2) /\
    (30 = 180 -> sky = 0).
Proof.
  apply (isotropicsky_share_of_DHI (Num 30) (Ser [100; 0]) 0 30 100);
    [reflexivity | reflexivity | lra].
Defined.

(** X2: Between a horizontal and a downward-facing surface, tilting further
    never adds sky diffuse. *)
Theorem isotropicsky_tilt_monotone DHI Tilt1 Tilt2 i d t1 t2 :
  elt DHI i = Some d -> elt Tilt1 i = Some t1 -> elt Tilt2 i = Some t2 ->
  0 <= d -> 0 <= t1 -> t1 <= t2 -> t2 <= 180 ->
  exists s1 s2,
    elt (isotropicsky Tilt1 DHI) i = Some s1 /\
    elt (isotropicsky Tilt2 DHI) i = Some s2 /\
    s2 <= s1.
Proof.
  intros Hd H1 H2 Hd0 Ht0 Ht12 Ht180. eexists _, _.
  split; [apply (isotropicsky_elt _ _ i t1 d H1 Hd)|].
  split; [apply (isotropicsky_elt _ _ i t2 d H2 Hd)|].
  pose proof PI_RGT_0 as Hpi.
  assert (Hc : cos (radians t2) <= cos (radians t1))
    by (apply cos_decr_1; unfold radians; nra).
  nra.
Qed.

Lemma isotropicsky_tilt_monotone_witness :
  exists s1 s2,
    elt (isotropicsky (Num 20) (Ser [100])) 0 = Some s1 /\
    elt (isotropicsky (Num 45) (Ser [100])) 0 = Some s2 /\
    s2 <= s1.
Proof.
  apply (isotropicsky_tilt_monotone (Ser [100]) (Num 20) (Num 45) 0 100 20 45);
    first [reflexivity | lra].
Defined.

(** ** grounddiffuse *)

(** X3: [grounddiffuse] returns a frame exactly when one of its arguments is
    a Series; called with three floats it raises the ValueError of
    [pd.DataFrame]. *)
Theorem grounddiffuse_needs_a_series SurfTilt GHI Albedo :
  (is_series SurfTilt || is_series GHI || is_series Albedo = false ->
   grounddiffuse SurfTilt GHI Albedo = Raise ValueError)
  /\ (is_series SurfTilt || is_series GHI || is_series Albedo = true ->
      exists s, grounddiffuse SurfTilt GHI Albedo = Ok (Ser s)).
Proof.
  destruct SurfTilt, GHI, Albedo; split; intros H; try discriminate H;
    first [reflexivity | eexists; reflexivity].
Qed.

Lemma grounddiffuse_ok SurfTilt GHI Albedo :
  is_series SurfTilt || is_series GHI || is_series Albedo = true ->
  grounddiffuse SurfTilt GHI Albedo
  = Ok (GHI * Albedo
        * ((Num 1 - vmap cos (vmap radians SurfTilt)) * Num 0.5))%V.
Proof.
  destruct SurfTilt, GHI, Albedo; intros H; try discriminate H; reflexivity.
Qed.

(** X4: The ground-reflected irradiance is [GHI * Albedo * (1 - cos tilt) / 2];
    for [GHI >= 0] and an albedo in [0, 1] it lies between 0 and
    [GHI * Albedo], and a horizontal surface receives none. *)
Theorem grounddiffuse_bounds SurfTilt GHI Albedo i t g a :
  is_series SurfTilt || is_series GHI || is_series Albedo = true ->
  elt SurfTilt i = Some t -> elt GHI i = Some g -> elt Albedo i = Some a ->
  0 <= g -> 0 <= a <= 1 ->
  exists GR gr,
    grounddiffuse SurfTilt GHI Albedo = Ok GR /\
    elt GR i = Some gr /\
    gr = g * a * ((1 - cos (radians t)) * 0.5) /\
    0 <= gr <= g * a /\ gr <= g /\
    (t = 0 -> gr = 0).
Proof.
  intros Hs Ht Hg Ha Hg0 Ha01.
  eexists. exists (g * a * ((1 - cos (radians t)) * 0.5)).
  split; [apply grounddiffuse_ok, Hs|].
  split; [elts; rewrite Ht, Hg, Ha; reflexivity|].
  split; [reflexivity|].
  pose proof (COS_bound (radians t)) as [Hl Hu].
  assert (Hga : 0 <= g * a) by nra.
  assert (Hga' : g * a <= g) by nra.
  split; [split; nra|]. split; [nra|].
  intros ->. rewrite radians_0, cos_0. lra.
Qed.

Lemma grounddiffuse_bounds_witness :
  exists GR gr,
    grounddiffuse (Num 30) (Ser [800; 0]) (Num 0.2) = Ok GR /\
    elt GR 0 = Some gr /\
    gr = 800 * 0.2 * ((1 - cos (radians 30)) * 0.5) /\
    0 <= gr <= 800 * 0.2 /\ gr <= 800 /\
    (30 = 0 -> gr = 0).
Proof.
  apply (grounddiffuse_bounds (Num 30) (Ser [800; 0]) (Num 0.2) 0 30 800 0.2);
    [reflexivity | reflexivity | reflexivity | reflexivity | lra | lra].
Defined.

(** X5: The view factors of sky and ground add up to one: on the same
    irradiance, with albedo 1, [isotropicsky] and [grounddiffuse] share it
    out without loss. *)
Theorem isotropicsky_grounddiffuse_complement SurfTilt X i t x :
  is_series SurfTilt || is_series X = true ->
  elt SurfTilt i = Some t -> elt X i = Some x ->
  exists GR gr sky,
    grounddiffuse SurfTilt X (Num 1) = Ok GR /\
    elt GR i = Some gr /\
    elt (isotropicsky SurfTilt X) i = Some sky /\
    sky + gr = x.
Proof.
  intros Hs Ht Hx.
  eexists. exists (x * 1 * ((1 - cos (radians t)) * 0.5)),
    (x * (1 + cos (radians t)) * 0.5).
  split; [apply grounddiffuse_ok; rewrite orb_false_r; exact Hs|].
  split; [elts; rewrite Ht, Hx; reflexivity|].
  split; [apply isotropicsky_elt; assumption|]. lra.
Qed.

Lemma isotropicsky_grounddiffuse_complement_witness :
  exists GR gr sky,
    grounddiffuse (Num 30) (Ser [800; 0]) (Num 1) = Ok GR /\
    elt GR 0 = Some gr /\
    elt (isotropicsky (Num 30) (Ser [800; 0])) 0 = Some sky /\
    sky + gr = 800.
Proof.
  apply (isotropicsky_grounddiffuse_complement (Num 30) (Ser [800; 0]) 0 30 800);
    reflexivity.
Defined.

(** ** kingdiffuse *)

Lemma kingdiffuse_elt SurfTilt DHI GHI SunZen i t d g z :
  elt SurfTilt i = Some t -> elt DHI i = Some d ->
  elt GHI i = Some g -> elt SunZen i = Some z ->
  elt (kingdiffuse SurfTilt DHI GHI SunZen) i
  = Some (d * (1 + cos (radians t)) / 2
          + g * (0.012 * z - 0.04) * (1 - cos (radians t)) / 2).
Proof.
  intros Ht Hd Hg Hz. unfold kingdiffuse. elts.
  rewrite Ht, Hd, Hg, Hz. reflexivity.
Qed.

(** X6: King's model is the isotropic sky diffuse plus a term in GHI that
    grows with the zenith angle and with the tilt; on a horizontal
    surface the term vanishes and the result is DHI. *)
Theorem kingdiffuse_isotropic_plus_correction SurfTilt DHI GHI SunZen
    i t d g z :
  elt SurfTilt i = Some t -> elt DHI i = Some d ->
  elt GHI i = Some g -> elt SunZen i = Some z ->
  exists king iso,
    elt (kingdiffuse SurfTilt DHI GHI SunZen) i = Some king /\
    elt (isotropicsky SurfTilt DHI) i = Some iso /\
    king = iso + g * (0.012 * z - 0.04) * (1 - cos (radians t)) / 2 /\
    (t = 0 -> king = d).
Proof.
  intros Ht Hd Hg Hz. eexists _, _.
  split; [apply (kingdiffuse_elt _ _ _ _ i t d g z); assumption|].
  split; [apply (isotropicsky_elt _ _ i t d); assumption|].
  split; [lra|]. intros ->. rewrite radians_0, cos_0. lra.
Qed.

Lemma kingdiffuse_isotropic_plus_correction_witness :
  exists king iso,
    elt (kingdiffuse (Num 30) (Ser [100]) (Ser [500]) (Ser [40])) 0
    = Some king /\
    elt (isotropicsky (Num 30) (Ser [100])) 0 = Some iso /\
    king = iso + 500 * (0.012 * 40 - 0.04) * (1 - cos (radians 30)) / 2 /\
    (30 = 0 -> king = 100).
Proof.
  apply (kingdiffuse_isotropic_plus_correction (Num 30) (Ser [100]) (Ser [500])
           (Ser [40]) 0 30 100 500 40); reflexivity.
Defined.

(** X7: No floor is applied in [kingdiffuse]: with the sun within 10/3
    degrees of the zenith the GHI term is negative, and on a surface that
    faces down (tilt 180) the returned sky diffuse is
    [GHI * (0.012 SunZen - 0.04) < 0]. *)
Theorem kingdiffuse_negative SurfTilt DHI GHI SunZen i d g z :
  elt SurfTilt i = Some 180 -> elt DHI i = Some d ->
  elt GHI i = Some g -> elt SunZen i = Some z ->
  0 < g -> z < 10 / 3 ->
  exists king,
    elt (kingdiffuse SurfTilt DHI GHI SunZen) i = Some king /\
    king = g * (0.012 * z - 0.04) /\ king < 0.
Proof.
  intros Ht Hd Hg Hz Hg0 Hz0. eexists.
  split; [apply (kingdiffuse_elt _ _ _ _ i 180 d g z); assumption|].
  rewrite radians_180, cos_PI. split; [lra | nra].
Qed.

Lemma kingdiffuse_negative_witness :
  exists king,
    elt (kingdiffuse (Num 180) (Ser [100]) (Ser [500]) (Ser [2])) 0
    = Some king /\
    king = 500 * (0.012 * 2 - 0.04) /\ king < 0.
Proof.
  apply (kingdiffuse_negative (Num 180) (Ser [100]) (Ser [500]) (Ser [2])
           0 100 500 2); [reflexivity | reflexivity | reflexivity
                          | reflexivity | lra | lra].
Defined.

(** ** extraradiation, over the whole year *)

(** X8: Whatever the day, the extraterrestrial radiation stays within the
    band the Fourier coefficients allow around the solar constant:
    between 1317 and 1417 W/m2. *)
Theorem extraradiation_range doy i d :
  elt doy i = Some d ->
  exists ea, elt (extraradiation doy) i = Some ea /\ 1317 < ea < 1417.
Proof.
  intros H. eexists. split; [apply (extraradiation_elt doy i d H)|].
  unfold Spec.Rfact.
  pose proof (COS_bound (2 * PI * d / 365)) as [Hc1 Hc2].
  pose proof (SIN_bound (2 * PI * d / 365)) as [Hs1 Hs2].
  pose proof (COS_bound (2 * (2 * PI * d / 365))) as [Hd1 Hd2].
  pose proof (SIN_bound (2 * (2 * PI * d / 365))) as [Ht1 Ht2].
  split; lra.
Qed.

Lemma extraradiation_range_witness :
  exists ea, elt (extraradiation (Ser [1; 172])) 1 = Some ea /\ 1317 < ea < 1417.
Proof.
  apply (extraradiation_range (Ser [1; 172]) 1 172). reflexivity.
Defined.



(** ** globalinplane *)

(** X10: [globalinplane] returns a frame exactly when AOI, DNI,
    In_Plane_SkyDiffuse or GR is a Series (SurfTilt and SurfAz do not
    enter the columns); called with floats only it raises the ValueError
    of [pd.DataFrame]. *)
Theorem globalinplane_needs_a_series SurfTilt SurfAz AOI DNI Sky GR :
  (is_series AOI || is_series DNI || is_series Sky || is_series GR = false ->
   globalinplane SurfTilt SurfAz AOI DNI Sky GR = Raise ValueError)
  /\ (is_series AOI || is_series DNI || is_series Sky || is_series GR = true ->
      exists df, globalinplane SurfTilt SurfAz AOI DNI Sky GR = Ok df /\
                 is_series (E df) = true).
Proof.
  split; intros H.
  - destruct AOI, DNI, Sky, GR; try discriminate H; reflexivity.
  - eexists. split; [apply globalinplane_ok, H|].
    destruct AOI, DNI, Sky, GR; try discriminate H; reflexivity.
Qed.



(** ** klucher1979: errors, frame and limits *)


Lemma klucher_clamps_idempotent dhi g :
  let clamp s :=
    assign_from Rltb 0 (assign_from Rltb 0 s dhi dhi) (Num 1e-06) (Num 1e-06) in
  clamp (clamp g) = clamp g.
Proof.
  cbv zeta. apply nth_error_ext. intros i.
  rewrite !nth_error_assign_from. cbn [Nat.add elt].
  destruct (nth_error g i) as [x|]; [|reflexivity]. f_equal.
  destruct (elt dhi i) as [d|]; rewrite !Rltb_Rmax.
  - pose proof (Rmax_r x d). pose proof (Rmax_l (Rmax x d) 1e-6).
    pose proof (Rmax_r (Rmax x d) 1e-6).
    rewrite (Rmax_left (Rmax (Rmax x d) 1e-6) d) by lra.
    apply Rmax_left. lra.
  - pose proof (Rmax_r x 1e-6). apply Rmax_left. lra.
Qed.

(** X13: What a call leaves in the caller's objects: GHI holds
    [max(max(GHI, DHI), 1e-6)] at every label, and nothing else has
    changed. *)
Theorem klucher1979_frame SurfTilt SurfAz DHI g SunZen SunAz :
  shape (length g) SurfTilt -> shape (length g) SurfAz ->
  shape (length g) DHI -> shape (length g) SunZen -> shape (length g) SunAz ->
  exists g',
    snd (call_klucher1979 SurfTilt SurfAz DHI (Ser g) SunZen SunAz)
    = [SurfTilt; SurfAz; DHI; Ser g'; SunZen; SunAz] /\
    length g' = length g /\
    forall i d gh, elt DHI i = Some d -> nth_error g i = Some gh ->
                   nth_error g' i = Some (Rmax (Rmax gh d) 1e-6).
Proof.
  intros _ _ _ _ _. apply klucher1979_heap.
Qed.

Lemma klucher1979_frame_witness :
  exists g',
    snd (call_klucher1979 (Num 30) (Num 180) (Ser [100; 0]) (Ser [50; 0])
           (Ser [30; 95]) (Num 180))
    = [Num 30; Num 180; Ser [100; 0]; Ser g'; Ser [30; 95]; Num 180] /\
    length g' = length [50; 0] /\
    forall i d gh, elt (Ser [100; 0]) i = Some d ->
                   nth_error [50; 0] i = Some gh ->
                   nth_error g' i = Some (Rmax (Rmax gh d) 1e-6).
Proof.
  apply (klucher1979_frame (Num 30) (Num 180) (Ser [100; 0]) [50; 0]
           (Ser [30; 95]) (Num 180));
    first [reflexivity | exact I].
Defined.

(** X14: The clamps reach a fixed point at once: a second call on the objects
    the first one left behind returns the same SkyDiffuse and changes
    nothing further. *)
Theorem klucher1979_second_call SurfTilt SurfAz DHI g SunZen SunAz :
  shape (length g) SurfTilt -> shape (length g) SurfAz ->
  shape (length g) DHI -> shape (length g) SunZen -> shape (length g) SunAz ->
  klucher1979 0%nat 1%nat 2%nat 3%nat 4%nat 5%nat
    (snd (call_klucher1979 SurfTilt SurfAz DHI (Ser g) SunZen SunAz))
  = call_klucher1979 SurfTilt SurfAz DHI (Ser g) SunZen SunAz.
Proof.
  intros _ _ _ _ _.
  rewrite call_klucher1979_eq. cbv zeta. cbn [snd].
  change (klucher1979 0%nat 1%nat 2%nat 3%nat 4%nat 5%nat [SurfTilt; SurfAz; DHI; ?G; SunZen; SunAz])
    with (call_klucher1979 SurfTilt SurfAz DHI G SunZen SunAz).
  rewrite call_klucher1979_eq. cbv zeta.
  now rewrite (klucher_clamps_idempotent DHI g).
Qed.

Lemma klucher1979_second_call_witness :
  klucher1979 0%nat 1%nat 2%nat 3%nat 4%nat 5%nat
    (snd (call_klucher1979 (Num 30) (Num 180) (Ser [100; 0]) (Ser [50; 0])
            (Ser [30; 95]) (Num 180)))
  = call_klucher1979 (Num 30) (Num 180) (Ser [100; 0]) (Ser [50; 0])
      (Ser [30; 95]) (Num 180).
Proof.
  apply (klucher1979_second_call (Num 30) (Num 180) (Ser [100; 0]) [50; 0]
           (Ser [30; 95]) (Num 180));
    first [reflexivity | exact I].
Defined.

(** X15: Under an overcast sky, where the global irradiance is all diffuse
    ([GHI <= DHI], [DHI >= 1e-6]), Klucher's modulating factor F is 0 and
    the model returns the isotropic sky diffuse. *)
Theorem klucher1979_overcast_isotropic SurfTilt SurfAz DHI g SunZen SunAz
    i t a d gh z s :
  shape (length g) SurfTilt -> shape (length g) SurfAz ->
  shape (length g) DHI -> shape (length g) SunZen -> shape (length g) SunAz ->
  elt SurfTilt i = Some t -> elt SurfAz i = Some a -> elt DHI i = Some d ->
  nth_error g i = Some gh -> elt SunZen i = Some z -> elt SunAz i = Some s ->
  gh <= d -> 1e-6 <= d ->
  exists sky h,
    call_klucher1979 SurfTilt SurfAz DHI (Ser g) SunZen SunAz = (Ok sky, h) /\
    elt sky i = elt (isotropicsky SurfTilt DHI) i /\
    elt sky i = Some (d * (1 + cos (radians t)) * 0.5).
Proof.
  intros _ _ _ _ _ Ht Ha Hd Hg Hz Hs Hgd Hd6.
  rewrite call_klucher1979_eq. cbv zeta.
  eexists; eexists; split; [reflexivity|].
  rewrite (isotropicsky_elt _ _ i t d Ht Hd).
  match goal with
  | |- ?A = ?B /\ ?A = ?B => cut (A = B); [tauto|]
  end.
  pose proof (klucher_GHI_elt DHI g i d gh Hd Hg) as Hghi.
  change (nth_error ?l i) with (elt (Ser l) i) in Hghi.
  assert (Hk : Spec.klucher_GHI d gh = d).
  { unfold Spec.klucher_GHI. rewrite (Rmax_right gh d Hgd).
    apply Rmax_left. lra. }
  rewrite Hk in Hghi.
  elts. rewrite Hghi, Ht, Ha, Hd, Hz, Hs. simpl. f_equal.
  replace (d / d) with 1 by (field; lra). ring.
Qed.

Lemma klucher1979_overcast_isotropic_witness :
  exists sky h,
    call_klucher1979 (Num 30) (Num 180) (Ser [100; 120]) (Ser [500; 80])
                     (Ser [40; 70]) (Ser [170; 200]) = (Ok sky, h) /\
    elt sky 1 = elt (isotropicsky (Num 30) (Ser [100; 120])) 1 /\
    elt sky 1 = Some (120 * (1 + cos (radians 30)) * 0.5).
Proof.
  apply (klucher1979_overcast_isotropic (Num 30) (Num 180) (Ser [100; 120])
           [500; 80] (Ser [40; 70]) (Ser [170; 200]) 1 30 180 120 80 70 200);
    first [reflexivity | exact I | lra].
Defined.

(** ** klucher1979 needs no floor *)

Lemma klucher1979_elt tilt az dhi g zen saz i t a d gh z s :
  elt tilt i = Some t -> elt az i = Some a -> elt dhi i = Some d ->
  nth_error g i = Some gh -> elt zen i = Some z -> elt saz i = Some s ->
  exists sky h,
    call_klucher1979 tilt az dhi (Ser g) zen saz = (Ok sky, h) /\
    elt sky i = Some (Spec.klucher t a d gh z s).
Proof.
  intros Ht Ha Hd Hg Hz Hs.
  rewrite call_klucher1979_eq. cbv zeta.
  eexists; eexists; split; [reflexivity|].
  pose proof (klucher_GHI_elt dhi g i d gh Hd Hg) as Hghi.
  change (nth_error ?l i) with (elt (Ser l) i) in Hghi.
  elts. rewrite Hghi, Ht, Ha, Hd, Hz, Hs. simpl.
  unfold Spec.klucher, Spec.COSTT, radians. f_equal. ring.
Qed.

(** The incidence cosine is a cosine: its square is at most 1. *)
Lemma COSTT_sqr_le_1 t a z s : Spec.COSTT t a z s ^ 2 <= 1.
Proof.
  unfold Spec.COSTT.
  pose proof (sin2_cos2 (radians t)) as H1.
  pose proof (sin2_cos2 (radians z)) as H2.
  pose proof (COS_bound (radians (s - a))) as [Hk1 Hk2].
  unfold Rsqr in H1, H2.
  set (ct := cos (radians t)) in *. set (st := sin (radians t)) in *.
  set (cz := cos (radians z)) in *. set (sz := sin (radians z)) in *.
  set (k := cos (radians (s - a))) in *.
  assert (Hid : (st * st + ct * ct) * (sz * sz + cz * cz)
                - (ct * cz + st * sz * k) ^ 2
                = (ct * sz - st * k * cz) ^ 2
                  + st ^ 2 * (1 - k ^ 2) * (sz * sz + cz * cz)) by ring.
  rewrite H1, H2 in Hid.
  assert (0 <= (ct * sz - st * k * cz) ^ 2) by (apply pow2_ge_0).
  assert (0 <= st ^ 2) by (apply pow2_ge_0).
  assert (0 <= 1 - k ^ 2) by nra.
  assert (0 <= st ^ 2 * (1 - k ^ 2)) by (apply Rmult_le_pos; assumption).
  lra.
Qed.

Lemma pow3_ge_m1 x : -1 <= x <= 1 -> -1 <= x ^ 3 <= 1.
Proof. intros [H1 H2]. split; nra. Qed.

Lemma klucher_nonneg t a d gh z s : 0 <= d -> 0 <= Spec.klucher t a d gh z s.
Proof.
  intros Hd. unfold Spec.klucher. cbv zeta.
  set (G := Spec.klucher_GHI d gh).
  assert (HG : d <= G /\ 1e-6 <= G).
  { unfold G, Spec.klucher_GHI.
    pose proof (Rmax_r gh d). pose proof (Rmax_l (Rmax gh d) 1e-6).
    pose proof (Rmax_r (Rmax gh d) 1e-6). lra. }
  destruct HG as [HG1 HG2].
  assert (Hq : 0 <= d / G <= 1).
  { split.
    - unfold Rdiv. apply Rmult_le_pos; [lra|].
      left. apply Rinv_0_lt_compat. lra.
    - apply (Rmult_le_reg_r G); [lra|]. unfold Rdiv.
      rewrite Rmult_assoc, Rinv_l by lra. lra. }
  set (q := d / G) in *.
  assert (HF : 0 <= 1 - q ^ 2 <= 1) by (split; nra).
  set (F := 1 - q ^ 2) in *.
  pose proof (COS_bound (radians t)) as [Hc1 Hc2].
  pose proof (pow3_ge_m1 _ (SIN_bound (radians (t / 2)))) as [Hs1 Hs2].
  pose proof (pow3_ge_m1 _ (SIN_bound (radians z))) as [Hz1 Hz2].
  pose proof (COSTT_sqr_le_1 t a z s) as HC.
  assert (HC0 : 0 <= Spec.COSTT t a z s ^ 2) by (apply pow2_ge_0).
  set (C2 := Spec.COSTT t a z s ^ 2) in *.
  set (S1 := sin (radians (t / 2)) ^ 3) in *.
  set (S2 := sin (radians z) ^ 3) in *.
  assert (H1 : 0 <= d * 0.5 * (1 + cos (radians t))) by nra.
  assert (H2 : 0 <= 1 + F * S1) by nra.
  assert (HFC : 0 <= F * C2 <= 1) by (split; nra).
  assert (H3 : 0 <= 1 + F * C2 * S2) by nra.
  apply Rmult_le_pos; [apply Rmult_le_pos|]; assumption.
Qed.

(** X16: For [DHI >= 0], Klucher's sky diffuse is never negative, at any
    tilt and sun position: F lies in [0, 1] after the clamps of GHI, and
    each of the three factors of the formula is non-negative. *)
Theorem klucher1979_nonnegative SurfTilt SurfAz DHI g SunZen SunAz
    i t a d gh z s :
  shape (length g) SurfTilt -> shape (length g) SurfAz ->
  shape (length g) DHI -> shape (length g) SunZen -> shape (length g) SunAz ->
  elt SurfTilt i = Some t -> elt SurfAz i = Some a -> elt DHI i = Some d ->
  nth_error g i = Some gh -> elt SunZen i = Some z -> elt SunAz i = Some s ->
  0 <= d ->
  exists sky h x,
    call_klucher1979 SurfTilt SurfAz DHI (Ser g) SunZen SunAz = (Ok sky, h) /\
    elt sky i = Some x /\ 0 <= x.
Proof.
  intros _ _ _ _ _ Ht Ha Hd Hg Hz Hs Hd0.
  destruct (klucher1979_elt _ _ _ _ _ _ i t a d gh z s Ht Ha Hd Hg Hz Hs)
    as (sky & h & Hcall & He).
  exists sky, h, (Spec.klucher t a d gh z s).
  split; [exact Hcall|]. split; [exact He|]. apply klucher_nonneg, Hd0.
Qed.

Lemma klucher1979_nonnegative_witness :
  exists sky h x,
    call_klucher1979 (Num 30) (Num 180) (Ser [100; 120]) (Ser [500; 80])
                     (Ser [40; 70]) (Ser [170; 200]) = (Ok sky, h) /\
    elt sky 0 = Some x /\ 0 <= x.
Proof.
  apply (klucher1979_nonnegative (Num 30) (Num 180) (Ser [100; 120])
           [500; 80] (Ser [40; 70]) (Ser [170; 200]) 0 30 180 100 500 40 170);
    first [reflexivity | exact I | lra].
Defined.

(** ** np.max as a reduction *)

Lemma list_max_ge x s : x <= list_max x s.
Proof.
  revert x; induction s as [|y s IH]; intros x; simpl; [lra|].
  pose proof (IH (Rmax x y)). pose proof (Rmax_l x y). lra.
Qed.

Lemma list_max_upper x s y : In y s -> y <= list_max x s.
Proof.
  revert x; induction s as [|w s IH]; intros x; simpl; [tauto|].
  intros [->|H]; [|apply IH, H].
  pose proof (list_max_ge (Rmax x y) s). pose proof (Rmax_r x y). lra.
Qed.

Lemma list_max_In x s : In (list_max x s) (x :: s).
Proof.
  revert x; induction s as [|y s IH]; intros x; simpl; [tauto|].
  destruct (IH (Rmax x y)) as [H|H]; [|tauto].
  rewrite <- H. unfold Rmax. destruct (Rle_dec x y); tauto.
Qed.

(** With 0 (or a float that truncates to 0) in the axis position,
    [np.max] of a value that has an element is that value's largest
    element. *)
Lemma np_max_Legacy v ax :
  ax = PyInt 0 \/ ax = PyFloat 0.01745 ->
  (exists k x, elt v k = Some x) ->
  exists m, np_max Legacy v ax = Ok (Num m) /\ is_max m v.
Proof.
  intros Hax (k & x0 & Hk).
  assert (Hnp : np_max Legacy v ax = np_max Legacy v (PyInt 0)).
  { destruct Hax as [->| ->]; [reflexivity|].
    unfold np_max. rewrite as_axis_floor. reflexivity. }
  rewrite Hnp. destruct v as [x|[|x s]].
  - exists x. split; [reflexivity|]. split; [exists 0%nat; reflexivity|].
    intros j y [= <-]. lra.
  - destruct k; discriminate Hk.
  - exists (list_max x s). split; [reflexivity|]. split.
    + apply (In_nth_error (x :: s)), list_max_In.
    + intros j y Hj. apply nth_error_In in Hj. destruct Hj as [<-|Hj].
      * apply list_max_ge.
      * apply list_max_upper, Hj.
Qed.

Lemma COSTT_elt tilt az zen saz i t a z s :
  elt tilt i = Some t -> elt az i = Some a ->
  elt zen i = Some z -> elt saz i = Some s ->
  elt (COSTT tilt az zen saz) i = Some (Spec.COSTT t a z s).
Proof.
  intros Ht Ha Hz Hs. unfold COSTT. elts. rewrite Ht, Ha, Hz, Hs.
  reflexivity.
Qed.

(** ** haydavies1980: what the code computes *)

Lemma haydavies1980_legacy_elt SurfTilt SurfAz DHI DNI HExtra SunZen SunAz
    i t a d dn h z s :
  elt SurfTilt i = Some t -> elt SurfAz i = Some a -> elt DHI i = Some d ->
  elt DNI i = Some dn -> elt HExtra i = Some h -> elt SunZen i = Some z ->
  elt SunAz i = Some s ->
  exists top bot sky,
    haydavies1980 Legacy SurfTilt SurfAz DHI DNI HExtra SunZen SunAz = Ok sky /\
    is_max top (COSTT SurfTilt SurfAz SunZen SunAz) /\
    is_max bot (cosd SunZen) /\
    elt sky i
    = Some (d * (dn / h * (top / bot)
                 + (1 - dn / h) * 0.5 * (1 + cos (radians t)))).
Proof.
  intros Ht Ha Hd Hdn Hh Hz Hs.
  destruct (np_max_Legacy (COSTT SurfTilt SurfAz SunZen SunAz) (PyInt 0))
    as (top & Htop & Mtop);
    [left; reflexivity
    | exists i; eexists; apply (COSTT_elt _ _ _ _ i t a z s); assumption |].
  destruct (np_max_Legacy (cosd SunZen) (PyFloat 0.01745))
    as (bot & Hbot & Mbot);
    [right; reflexivity
    | exists i; eexists; unfold cosd; rewrite elt_vmap, Hz; reflexivity |].
  exists top, bot. eexists. unfold haydavies1980.
  fold (COSTT SurfTilt SurfAz SunZen SunAz). rewrite Htop, Hbot.
  cbn [rbind]. split; [reflexivity|]. split; [exact Mtop|].
  split; [exact Mbot|].
  elts. rewrite Ht, Hd, Hdn, Hh. reflexivity.
Qed.



(** X18: Called with floats, [haydavies1980] applies no floor at all: [np.max]
    hands each float back and RB is [COSTT / cos(zenith)].  With the sun
    behind the surface ([COSTT < 0]) the result falls below what the
    floored ratio [max(COSTT, 0) / max(cos(zenith), 0.01745)] gives. *)
Theorem haydavies1980_floats_unfloored t a d dn h z s :
  0 < d -> 0 < dn -> 0 < h ->
  Spec.COSTT t a z s < 0 -> 0.01745 <= cos (radians z) ->
  exists sky,
    haydavies1980 Legacy (Num t) (Num a) (Num d) (Num dn) (Num h) (Num z)
      (Num s) = Ok (Num sky) /\
    sky = d * (dn / h * (Spec.COSTT t a z s / cos (radians z))
               + (1 - dn / h) * 0.5 * (1 + cos (radians t))) /\
    sky < Spec.haydavies t a d dn h z s.
Proof.
  intros Hd Hdn Hh HC Hz. eexists.
  split; [unfold haydavies1980, np_max; rewrite as_axis_floor; reflexivity|].
  split; [reflexivity|].
  unfold Spec.haydavies, Spec.RB. cbv zeta.
  rewrite (Rmax_right (Spec.COSTT t a z s) 0) by lra.
  rewrite (Rmax_left (cos (radians z)) 0.01745) by lra.
  assert (Hai : 0 < dn / h) by (apply Rdiv_lt_0_compat; assumption).
  assert (Hrb : Spec.COSTT t a z s / cos (radians z) < 0).
  { unfold Rdiv. rewrite <- (Rmult_0_l (/ cos (radians z))).
    apply Rmult_lt_compat_r; [apply Rinv_0_lt_compat; lra | exact HC]. }
  replace (0 / cos (radians z)) with 0 by (unfold Rdiv; ring).
  assert (Hneg : dn / h * (Spec.COSTT t a z s / cos (radians z)) < 0) by nra.
  apply Rmult_lt_compat_l; [exact Hd|]. rewrite Rmult_0_r.
  unfold Spec.COSTT in Hneg. lra.
Qed.

Lemma radians_60 : radians 60 = PI / 3.
Proof. unfold radians; lra. Qed.

Lemma haydavies1980_floats_unfloored_witness :
  exists sky,
    haydavies1980 Legacy (Num 90) (Num 0) (Num 100) (Num 700) (Num 1400)
      (Num 60) (Num 180) = Ok (Num sky) /\
    sky = 100 * (700 / 1400 * (Spec.COSTT 90 0 60 180 / cos (radians 60))
                 + (1 - 700 / 1400) * 0.5 * (1 + cos (radians 90))) /\
    sky < Spec.haydavies 90 0 100 700 1400 60 180.
Proof.
  apply (haydavies1980_floats_unfloored 90 0 100 700 1400 60 180);
    try lra.
  - unfold Spec.COSTT. replace (180 - 0) with 180 by lra.
    rewrite radians_90, radians_60, cos_PI2, sin_PI2.
    replace (radians 180) with PI by (unfold radians; lra).
    rewrite cos_PI, cos_PI3.
    assert (0 < sin (PI / 3))
      by (pose proof PI_RGT_0; apply sin_gt_0; lra).
    lra.
  - rewrite radians_60, cos_PI3. lra.
Defined.

(** X19: Where numpy refuses a float axis, no call of [haydavies1980]
    returns. *)
Theorem haydavies1980_modern_raises SurfTilt SurfAz DHI DNI HExtra SunZen
    SunAz :
  exists e,
    haydavies1980 Modern SurfTilt SurfAz DHI DNI HExtra SunZen SunAz
    = Raise e.
Proof.
  unfold haydavies1980.
  destruct (np_max Modern _ (PyInt 0)) as [top|e]; cbn [rbind];
    eexists; reflexivity.
Qed.

(** X20: Without beam irradiance ([DNI = 0], hence [AI = 0]) the Hay-Davies
    result is the isotropic sky diffuse. *)
Theorem haydavies1980_no_beam_isotropic n SurfTilt SurfAz DHI DNI HExtra SunZen
    SunAz i t a d h z s k zk :
  shape n SurfTilt -> shape n SurfAz -> shape n DHI -> shape n DNI ->
  shape n HExtra -> shape n SunZen -> shape n SunAz ->
  elt SurfTilt i = Some t -> elt SurfAz i = Some a -> elt DHI i = Some d ->
  elt DNI i = Some 0 -> elt HExtra i = Some h -> elt SunZen i = Some z ->
  elt SunAz i = Some s ->
  h <> 0 -> elt SunZen k = Some zk -> 0 < cos (radians zk) ->
  exists sky,
    haydavies1980 Legacy SurfTilt SurfAz DHI DNI HExtra SunZen SunAz = Ok sky /\
    elt sky i = elt (isotropicsky SurfTilt DHI) i.
Proof.
  intros _ _ _ _ _ _ _ Ht Ha Hd Hdn Hh Hz Hs Hh0 _ _.
  destruct (haydavies1980_legacy_elt SurfTilt SurfAz DHI DNI HExtra
              SunZen SunAz i t a d 0 h z s Ht Ha Hd Hdn Hh Hz Hs)
    as (top & bot & sky & Hcall & _ & _ & He).
  exists sky. split; [exact Hcall|].
  rewrite He, (isotropicsky_elt _ _ i t d Ht Hd). f_equal.
  unfold Rdiv. ring.
Qed.

Lemma cos_radians_acute x : 0 <= x < 90 -> 0 < cos (radians x).
Proof.
  intros [Hl Hu]. pose proof PI_RGT_0 as Hpi.
  apply cos_gt_0; unfold radians; nra.
Qed.

Lemma haydavies1980_no_beam_isotropic_witness :
  exists sky,
    haydavies1980 Legacy (Num 30) (Num 180) (Ser [100; 50]) (Ser [0; 0])
      (Num 1400) (Ser [30; 60]) (Num 180) = Ok sky /\
    elt sky 0 = elt (isotropicsky (Num 30) (Ser [100; 50])) 0.
Proof.
  apply (haydavies1980_no_beam_isotropic 2 (Num 30) (Num 180) (Ser [100; 50])
           (Ser [0; 0]) (Num 1400) (Ser [30; 60]) (Num 180) 0
           30 180 100 1400 30 180 0 30);
    first [reflexivity | exact I | lra | apply cos_radians_acute; lra].
Defined.

(** ** reindl1990: what the code computes *)

Lemma reindl_GHI_clamps g :
  assign_from Rltb 0 (assign_from Rltb 0 g (Num 1e-06) (Num 1e-06))
    (Num 0) (Num 0)
  = assign_from Rltb 0 g (Num 1e-06) (Num 1e-06).
Proof.
  apply nth_error_ext. intros i.
  rewrite !nth_error_assign_from. cbn [Nat.add elt].
  destruct (nth_error g i) as [x|]; [|reflexivity]. f_equal.
  rewrite !Rltb_Rmax. pose proof (Rmax_r x 1e-6). apply Rmax_left. lra.
Qed.

Lemma HB_series dni zen :
  is_series dni || is_series zen = true ->
  exists hb, (dni * cosd zen)%V = Ser hb.
Proof.
  destruct dni, zen; intros H; try discriminate H; eexists; reflexivity.
Qed.

(** The statements of a call on a Series GHI and a Series beam term,
    once the two [np.max] reductions have returned. *)
Lemma call_reindl1990_eq tilt az dhi dni g hx zen saz top bot hb :
  np_max Legacy (COSTT tilt az zen saz) (PyInt 0) = Ok (Num top) ->
  np_max Legacy (cosd zen) (PyFloat 0.01745) = Ok (Num bot) ->
  (dni * cosd zen)%V = Ser hb ->
  call_reindl1990 Legacy tilt az dhi dni (Ser g) hx zen saz
  = (let ghi := Ser (assign_from Rltb 0 g (Num 1e-06) (Num 1e-06)) in
     let HB := Ser (assign_from Rltb 0 hb (Num 0) (Num 0)) in
     let F := vmap sqrt (HB / ghi)%V in
     (Ok (dhi * ((dni / hx) * (Num top / Num bot)
                 + (Num 1 - dni / hx) * Num 0.5 * (Num 1 + cosd tilt)
                   * (Num 1 + F * (sind (tilt * Num 0.5)) ** 3)))%V,
      [tilt; az; dhi; dni; ghi; hx; zen; saz])).
Proof.
  intros Htop Hbot Hhb. unfold call_reindl1990, reindl1990. run_perez.
  fold (COSTT tilt az zen saz). rewrite Htop. run_perez.
  rewrite Hbot. run_perez. rewrite Hhb. run_perez.
  rewrite reindl_GHI_clamps. reflexivity.
Qed.

Lemma reindl1990_legacy_elt SurfTilt SurfAz DHI DNI g HExtra SunZen
    SunAz i t a d dn gh h z s :
  is_series DNI || is_series SunZen = true ->
  elt SurfTilt i = Some t -> elt SurfAz i = Some a -> elt DHI i = Some d ->
  elt DNI i = Some dn -> nth_error g i = Some gh -> elt HExtra i = Some h ->
  elt SunZen i = Some z -> elt SunAz i = Some s ->
  exists top bot sky g',
    call_reindl1990 Legacy SurfTilt SurfAz DHI DNI (Ser g) HExtra SunZen SunAz
    = (Ok sky, [SurfTilt; SurfAz; DHI; DNI; Ser g'; HExtra; SunZen; SunAz]) /\
    is_max top (COSTT SurfTilt SurfAz SunZen SunAz) /\
    is_max bot (cosd SunZen) /\
    length g' = length g /\
    (forall k x, nth_error g k = Some x ->
                 nth_error g' k = Some (Rmax x 1e-6)) /\
    elt sky i
    = Some (d * (dn / h * (top / bot)
                 + (1 - dn / h) * 0.5 * (1 + cos (radians t))
                   * (1 + sqrt (Rmax (dn * cos (radians z)) 0 / Rmax gh 1e-6)
                          * sin (radians (t * 0.5)) ^ 3))).
Proof.
  intros Hser Ht Ha Hd Hdn Hg Hh Hz Hs.
  destruct (np_max_Legacy (COSTT SurfTilt SurfAz SunZen SunAz) (PyInt 0))
    as (top & Htop & Mtop);
    [left; reflexivity
    | exists i; eexists; apply (COSTT_elt _ _ _ _ i t a z s); assumption |].
  destruct (np_max_Legacy (cosd SunZen) (PyFloat 0.01745))
    as (bot & Hbot & Mbot);
    [right; reflexivity
    | exists i; eexists; unfold cosd; rewrite elt_vmap, Hz; reflexivity |].
  destruct (HB_series DNI SunZen Hser) as [hb Hhb].
  assert (Hhbi : nth_error hb i = Some (dn * cos (radians z))).
  { change (elt (Ser hb) i = Some (dn * cos (radians z))).
    rewrite <- Hhb. elts. rewrite Hdn, Hz. reflexivity. }
  exists top, bot. eexists. eexists.
  rewrite (call_reindl1990_eq _ _ _ _ _ _ _ _ top bot hb Htop Hbot Hhb).
  cbv zeta. split; [reflexivity|]. split; [exact Mtop|].
  split; [exact Mbot|]. split; [apply length_assign_from|].
  split.
  - intros k x Hk. apply clamp_elt; [exact Hk | reflexivity].
  - pose proof (clamp_elt g (Num 1e-06) i gh 1e-6 Hg eq_refl) as Hgi.
    pose proof (clamp_elt hb (Num 0) i _ 0 Hhbi eq_refl) as Hbi.
    change (nth_error ?l i) with (elt (Ser l) i) in Hgi, Hbi.
    elts. rewrite Hgi, Hbi, Ht, Hd, Hdn, Hh. reflexivity.
Qed.



(** X22: A float for GHI is refused, whatever numpy does with the axis: the
    call ends in an exception with the caller's objects untouched. *)
Theorem reindl1990_scalar_GHI era SurfTilt SurfAz DHI DNI g HExtra SunZen
    SunAz :
  exists e,
    call_reindl1990 era SurfTilt SurfAz DHI DNI (Num g) HExtra SunZen SunAz
    = (Raise e, [SurfTilt; SurfAz; DHI; DNI; Num g; HExtra; SunZen; SunAz]).
Proof.
  unfold call_reindl1990, reindl1990. run_perez.
  destruct (np_max era _ (PyInt 0)) as [top|e]; run_perez;
    [|eexists; reflexivity].
  destruct (np_max era _ (PyFloat 0.01745)) as [bot|e]; run_perez;
    eexists; reflexivity.
Qed.

(** X23: Where numpy refuses a float axis, no call of [reindl1990] returns,
    and the exception comes before GHI is touched. *)
Theorem reindl1990_modern_raises SurfTilt SurfAz DHI DNI GHI HExtra SunZen
    SunAz :
  exists e,
    call_reindl1990 Modern SurfTilt SurfAz DHI DNI GHI HExtra SunZen SunAz
    = (Raise e, [SurfTilt; SurfAz; DHI; DNI; GHI; HExtra; SunZen; SunAz]).
Proof.
  unfold call_reindl1990, reindl1990. run_perez.
  destruct (np_max Modern _ (PyInt 0)) as [top|e]; run_perez;
    eexists; reflexivity.
Qed.



(** X25: Without beam irradiance ([DNI = 0]) both the anisotropy index AI and
    the horizon term F vanish, and the Reindl result is the isotropic sky
    diffuse. *)
Theorem reindl1990_no_beam_isotropic SurfTilt SurfAz DHI DNI g HExtra SunZen
    SunAz i t a d gh h z s k zk :
  shape (length g) SurfTilt -> shape (length g) SurfAz ->
  shape (length g) DHI -> shape (length g) DNI ->
  shape (length g) HExtra -> shape (length g) SunZen ->
  shape (length g) SunAz ->
  is_series DNI || is_series SunZen = true ->
  elt SurfTilt i = Some t -> elt SurfAz i = Some a -> elt DHI i = Some d ->
  elt DNI i = Some 0 -> nth_error g i = Some gh -> elt HExtra i = Some h ->
  elt SunZen i = Some z -> elt SunAz i = Some s ->
  h <> 0 -> elt SunZen k = Some zk -> 0 < cos (radians zk) ->
  exists sky hp,
    call_reindl1990 Legacy SurfTilt SurfAz DHI DNI (Ser g) HExtra SunZen SunAz
    = (Ok sky, hp) /\
    elt sky i = elt (isotropicsky SurfTilt DHI) i.
Proof.
  intros _ _ _ _ _ _ _ Hser Ht Ha Hd Hdn Hg Hh Hz Hs Hh0 _ _.
  destruct (reindl1990_legacy_elt SurfTilt SurfAz DHI DNI g HExtra SunZen
              SunAz i t a d 0 gh h z s Hser Ht Ha Hd Hdn Hg Hh Hz Hs)
    as (top & bot & sky & g' & Hcall & _ & _ & _ & _ & He).
  eexists sky, _. split; [exact Hcall|].
  rewrite He, (isotropicsky_elt _ _ i t d Ht Hd). f_equal.
  rewrite Rmult_0_l, Rmax_0_0.
  replace (0 / Rmax gh 1e-6) with 0 by (unfold Rdiv; ring).
  rewrite sqrt_0. unfold Rdiv. ring.
Qed.

Lemma reindl1990_no_beam_isotropic_witness :
  exists sky hp,
    call_reindl1990 Legacy (Num 30) (Num 180) (Ser [100; 50]) (Ser [0; 0])
      (Ser [100; 50]) (Num 1400) (Ser [30; 60]) (Num 180)
    = (Ok sky, hp) /\
    elt sky 0 = elt (isotropicsky (Num 30) (Ser [100; 50])) 0.
Proof.
  apply (reindl1990_no_beam_isotropic (Num 30) (Num 180) (Ser [100; 50])
           (Ser [0; 0]) [100; 50] (Num 1400) (Ser [30; 60]) (Num 180) 0
           30 180 100 100 1400 30 180 0 30);
    first [reflexivity | exact I | lra | apply cos_radians_acute; lra].
Defined.

(** ** GetPerezCoefficients: the two blocks *)

Lemma blocks_concat (rows : list (list R)) :
  Forall (fun r => length r = 6%nat) rows ->
  map2 (@app R) (map (slice 0 3) rows) (map (slice 3 6) rows) = rows.
Proof.
  induction 1 as [|r rows Hr H IH]; [reflexivity|].
  cbn [map map2]. rewrite IH. f_equal.
  do 7 (destruct r as [|? r]; try discriminate Hr). reflexivity.
Qed.

(** X26: For each model but ['allsitescomposite1988'], the lookup returns two
    8 x 3 blocks that split every row of the table after its third
    entry: joined row by row they give the table back.  The slice [3:7]
    of the second block asks for four columns and gets the three there
    are. *)
Theorem GetPerezCoefficients_blocks era m rows :
  dict_get coeffdict m = Ok rows ->
  m <> "allsitescomposite1988"%string ->
  exists F1 F2,
    GetPerezCoefficients era m = Ok (Mat F1, Mat F2) /\
    length F1 = 8%nat /\ length F2 = 8%nat /\
    Forall (fun r => length r = 3%nat) F1 /\
    Forall (fun r => length r = 3%nat) F2 /\
    map2 (@app R) F1 F2 = rows.
Proof.
  intros Hd Hne. pose proof (tables_8x6 m rows Hd Hne) as H86.
  destruct (is_8x6_rows rows H86) as [Hlen Hrows].
  exists (map (slice 0 3) rows), (map (slice 3 6) rows).
  split; [apply (GetPerezCoefficients_8x6 era m rows Hd H86)|].
  rewrite !length_map.
  split; [exact Hlen|]. split; [exact Hlen|].
  split; [|split].
  - apply Forall_map. eapply Forall_impl; [|exact Hrows].
    intros r Hr. cbv beta in Hr. unfold slice.
    rewrite length_firstn, length_skipn. lia.
  - apply Forall_map. eapply Forall_impl; [|exact Hrows].
    intros r Hr. cbv beta in Hr. unfold slice.
    rewrite length_firstn, length_skipn. lia.
  - apply blocks_concat, Hrows.
Qed.

Lemma GetPerezCoefficients_blocks_witness :
  exists F1 F2,
    GetPerezCoefficients Modern "france1988" = Ok (Mat F1, Mat F2) /\
    length F1 = 8%nat /\ length F2 = 8%nat /\
    Forall (fun r => length r = 3%nat) F1 /\
    Forall (fun r => length r = 3%nat) F2 /\
    map2 (@app R) F1 F2 = Table.france1988.
Proof.
  apply (GetPerezCoefficients_blocks Modern "france1988"%string
           Table.france1988); [reflexivity | discriminate].
Defined.

(** ** perez: the caller's HExtra, and the table that cannot be used *)

(** X27: Whatever becomes of the call (it returns, or it fails on the model
    name or on the table), [perez] has by then replaced every 0 in the
    caller's HExtra by 1e-8, and has left the other arguments as they
    were. *)
Theorem perez_overwrites_HExtra era SurfTilt SurfAz dhi dni hx zen SunAz AM
    modelt :
  length dni = length dhi -> length hx = length dhi ->
  length zen = length dhi ->
  shape (length dhi) SurfTilt -> shape (length dhi) SurfAz ->
  shape (length dhi) SunAz -> shape (length dhi) AM ->
  exists hx',
    snd (call_perez era SurfTilt SurfAz (Ser dhi) (Ser dni) (Ser hx) (Ser zen)
           SunAz AM modelt)
    = [SurfTilt; SurfAz; Ser dhi; Ser dni; Ser hx'; Ser zen; SunAz; AM] /\
    length hx' = length hx /\
    forall k x, nth_error hx k = Some x ->
                nth_error hx' k = Some (if Reqb x 0 then 0.00000001 else x).
Proof.
  intros _ _ _ _ _ _ _.
  exists (assign_from Reqb 0 hx (Num 0) (Num 0.00000001)).
  split; [|split].
  - assert (Hz : (Ser zen * Num PI / Num 180)%V
                 = Ser (map (fun x => x / 180) (map (fun x => x * PI) zen)))
      by reflexivity.
    destruct (perez_e_series 1.041 dhi dni
                (map (fun x => x / 180) (map (fun x => x * PI) zen)) zen)
      as [e He].
    destruct (COSTT_series SurfTilt SurfAz zen SunAz) as [costt HA].
    unfold call_perez, perez. run_perez.
    rewrite Hz, He. run_perez.
    destruct (GetPerezCoefficients era _) as [[F1c F2c]|x]; run_perez;
      [|reflexivity].
    destruct (perez_F F1c _ _ _ _) as [F1|x]; run_perez; [|reflexivity].
    destruct (perez_F F2c _ _ _ _) as [F2|x]; run_perez; [|reflexivity].
    rewrite HA. run_perez. cbn [cosd vmap]. run_perez.
    rewrite perez_SkyDiffuse_series. run_perez. reflexivity.
  - apply length_assign_from.
  - intros k x Hk. rewrite nth_error_assign_from, Hk. reflexivity.
Qed.

Lemma perez_overwrites_HExtra_witness :
  exists hx',
    snd (call_perez Legacy (Num 30) (Num 180) (Ser [100; 0]) (Ser [800; 0])
           (Ser [1400; 0]) (Ser [30; 95]) (Num 180) (Num 1.5) None)
    = [Num 30; Num 180; Ser [100; 0]; Ser [800; 0]; Ser hx'; Ser [30; 95];
       Num 180; Num 1.5] /\
    length hx' = length [1400; 0] /\
    forall k x, nth_error [1400; 0] k = Some x ->
                nth_error hx' k = Some (if Reqb x 0 then 0.00000001 else x).
Proof.
  apply (perez_overwrites_HExtra Legacy (Num 30) (Num 180) [100; 0] [800; 0]
           [1400; 0] [30; 95] (Num 180) (Num 1.5) None);
    first [reflexivity | exact I].
Defined.

(** X28: With ['allsitescomposite1988'] no call of [perez] on Series returns:
    the ragged table gives a one-dimensional array and [F1c[ebin,0]]
    raises IndexError, or, where numpy refuses ragged input, the lookup
    itself raises ValueError. *)
Theorem perez_allsitescomposite1988_raises era SurfTilt SurfAz dhi dni hx zen
    SunAz AM :
  length dni = length dhi -> length hx = length dhi ->
  length zen = length dhi ->
  shape (length dhi) SurfTilt -> shape (length dhi) SurfAz ->
  shape (length dhi) SunAz -> shape (length dhi) AM ->
  fst (call_perez era SurfTilt SurfAz (Ser dhi) (Ser dni) (Ser hx) (Ser zen)
         SunAz AM (Some "allsitescomposite1988"%string))
  = Raise (match era with Legacy => IndexError | Modern => ValueError end).
Proof.
  intros _ _ _ _ _ _ _.
  pose proof (GetPerezCoefficients_1988 era) as HG. destruct era.
  - apply (perez_ObjArr Legacy SurfTilt SurfAz dhi dni hx zen SunAz AM
             (Some "allsitescomposite1988"%string) _ _ HG).
  - apply (perez_raises Modern SurfTilt SurfAz dhi dni hx zen SunAz AM
             (Some "allsitescomposite1988"%string) _ HG).
Qed.

Lemma perez_allsitescomposite1988_raises_witness :
  fst (call_perez Legacy (Num 30) (Num 180) (Ser [100; 0]) (Ser [800; 0])
         (Ser [1400; 0]) (Ser [30; 95]) (Num 180) (Num 1.5)
         (Some "allsitescomposite1988"%string))
  = Raise IndexError.
Proof.
  apply (perez_allsitescomposite1988_raises Legacy (Num 30) (Num 180) [100; 0]
           [800; 0] [1400; 0] [30; 95] (Num 180) (Num 1.5));
    first [reflexivity | exact I].
Defined.

(** ** perez: the clearness bins *)

(** X29: The eight masked assignments give every label that carries a
    clearness exactly one bin from 1 to 8, the bins being the half-open
    intervals between the breakpoints 1.065, 1.23, 1.5, 1.95, 2.8, 4.5
    and 6.2 (a clearness on a breakpoint falls in the upper bin); a label
    without clearness keeps the 0 of [np.zeros] and is filtered out. *)
Theorem perez_bins_half_open n e i :
  (i < n)%nat ->
  (forall ev, nth_error e i = Some (Some ev) ->
     exists k,
       nth_error (perez_ebin n e) i = Some k /\
       (k = 1%Z <-> ev < 1.065) /\
       (k = 2%Z <-> 1.065 <= ev < 1.23) /\
       (k = 3%Z <-> 1.23 <= ev < 1.5) /\
       (k = 4%Z <-> 1.5 <= ev < 1.95) /\
       (k = 5%Z <-> 1.95 <= ev < 2.8) /\
       (k = 6%Z <-> 2.8 <= ev < 4.5) /\
       (k = 7%Z <-> 4.5 <= ev < 6.2) /\
       (k = 8%Z <-> 6.2 <= ev))
  /\ (nth_error e i = Some None ->
      nth_error (perez_ebin n e) i = Some 0%Z).
Proof.
  intros Hi. split.
  - intros ev He. eexists. split; [apply (perez_ebin_elt n e i _ Hi He)|].
    unfold Spec.bin_of, Rltb.
    repeat match goal with
           | |- context [Rlt_dec ev ?c] =>
               destruct (Rlt_dec ev c); try (exfalso; lra)
           end;
      repeat split; intros; first [lra | lia | exfalso; lra].
  - intros He. apply (perez_ebin_elt n e i _ Hi He).
Qed.

Lemma perez_bins_half_open_witness :
  (forall ev, nth_error [Some 1.065; None] 0 = Some (Some ev) ->
     exists k,
       nth_error (perez_ebin 2 [Some 1.065; None]) 0 = Some k /\
       (k = 1%Z <-> ev < 1.065) /\
       (k = 2%Z <-> 1.065 <= ev < 1.23) /\
       (k = 3%Z <-> 1.23 <= ev < 1.5) /\
       (k = 4%Z <-> 1.5 <= ev < 1.95) /\
       (k = 5%Z <-> 1.95 <= ev < 2.8) /\
       (k = 6%Z <-> 2.8 <= ev < 4.5) /\
       (k = 7%Z <-> 4.5 <= ev < 6.2) /\
       (k = 8%Z <-> 6.2 <= ev))
  /\ (nth_error [Some 1.065; None] 0 = Some None ->
      nth_error (perez_ebin 2 [Some 1.065; None]) 0 = Some 0%Z).
Proof.
  apply (perez_bins_half_open 2 [Some 1.065; None] 0). lia.
Defined.
